(** * rents: rental management endpoints over the Frappe framework

    A shallow embedding of [rents/rental_management_system/api.py] and of
    the patch [rents/patches/create_landlord_tenant_roles.py].

    The framework is not part of the repository.  What the handlers use
    of it is modelled as follows:
    - a table of the backing store is a list of rows (or, where the code
      addresses rows by primary key only, a [gmap] from the key);
    - a Python value that travels through a handler is a [pyval];
    - a handler that can raise or that writes to the store is a
      computation in the state-and-exception monad [M];
    - [save_file], the naming rule of a new document, the validation run
      by [insert]/[save], [str] and [frappe.get_traceback] are parameters
      of the section that uses them.

    The plain read [get_all_payments] is not embedded. *)

From stdpp Require Import gmap strings list fin_maps.
From Stdlib Require Import ZArith Permutation.

#[local] Set Warnings "-register-all".
#[local] Open Scope string_scope.
#[local] Open Scope list_scope.
#[local] Open Scope Z_scope.

(** ** Python values *)

(** The JSON-like values an endpoint receives and returns. *)
Inductive pyval :=
| VNone
| VBool (b : bool)
| VInt (z : Z)
| VStr (s : string)
| VList (l : list pyval)
| VDict (d : gmap string pyval).

(** Python truthiness, [bool(v)]. *)
Definition truthy (v : pyval) : bool :=
  match v with
  | VNone => false
  | VBool b => b
  | VInt z => negb (z =? 0)
  | VStr s => negb (String.eqb s "")
  | VList l => match l with [] => false | _ => true end
  | VDict d => negb (bool_decide (d = ∅))
  end.

(** [s.startswith(p)] *)
Definition startswith (s p : string) : bool := String.prefix p s.

(** [d.get(k)]: the value, or [None] when the key is absent. *)
Definition dict_get (d : gmap string pyval) (k : string) : pyval :=
  default VNone (d !! k).

(** [k in d] *)
Definition dict_has (d : gmap string pyval) (k : string) : bool :=
  bool_decide (is_Some (d !! k)).

(** ** Exceptions and the handler monad *)

Inductive exn_class :=
| DoesNotExistError
| DuplicateEntryError
| AttributeError
| KeyError
| OtherException (cls : string).

(** An exception object: its class and [str(e)]. *)
Record exn := mkExn { exn_cls : exn_class; exn_str : string }.

#[global] Instance exn_class_eq_dec : EqDecision exn_class.
Proof. solve_decision. Defined.

Inductive outcome (A : Type) :=
| Ok (a : A)
| Raise (e : exn).
Arguments Ok {A} a.
Arguments Raise {A} e.

(** A computation over a store [S]: it returns or raises, and in both
    cases leaves a store behind (what was written before a [raise] stays
    written). *)
Definition M (S A : Type) : Type := S → outcome A * S.

Section monad.
Context {S : Type}.

Definition ret {A} (a : A) : M S A := λ s, (Ok a, s).

Definition bind {A B} (m : M S A) (k : A → M S B) : M S B :=
  λ s, match m s with
       | (Ok a, s') => k a s'
       | (Raise e, s') => (Raise e, s')
       end.

Definition raise {A} (e : exn) : M S A := λ s, (Raise e, s).

Definition gets {A} (f : S → A) : M S A := λ s, (Ok (f s), s).

Definition modify (f : S → S) : M S unit := λ s, (Ok tt, f s).

(** [try: body except Exception as e: handler(e)] *)
Definition try_except {A} (body : M S A) (handler : exn → M S A) : M S A :=
  λ s, match body s with
       | (Ok a, s') => (Ok a, s')
       | (Raise e, s') => handler e s'
       end.

(** [for x in l: acc = body(acc, x)], the loop variable state threaded
    through the iterations. *)
Fixpoint for_each {A B} (l : list B) (body : A → B → M S A) (acc : A) : M S A :=
  match l with
  | [] => ret acc
  | x :: l' => bind (body acc x) (for_each l' body)
  end.

(** [[f(x) for x in l]] with an effectful [f]. *)
Fixpoint map_m {A B} (f : A → M S B) (l : list A) : M S (list B) :=
  match l with
  | [] => ret []
  | x :: l' => bind (f x) (λ y, bind (map_m f l') (λ ys, ret (y :: ys)))
  end.
End monad.

Declare Scope handler_scope.
Delimit Scope handler_scope with handler.
Notation "x <- m ;; k" := (bind m (λ x, k))
  (at level 100, m at next level, right associativity) : handler_scope.
Notation "m ;;; k" := (bind m (λ _, k))
  (at level 100, right associativity) : handler_scope.

(** ** Payment aggregator *)

Module Payments.

(** A column value: [None] is SQL NULL.  [amount_tzs] is a fixed-point
    decimal column; an amount is carried as the integer count of the
    column's smallest unit, so that [SUM] is exact as it is in the
    database. *)
Abbreviation cell := (option Z).

(** The columns of [tabPayment] the two aggregates read. *)
Record payment := mkPayment { amount_tzs : cell; docstatus : Z }.

Abbreviation table := (list payment).

(** SQL [SUM]: NULL values are skipped, and the sum of no value is NULL. *)
Definition sql_sum (l : list cell) : cell :=
  foldl (λ acc c, match c with
                  | None => acc
                  | Some x => Some (default 0 acc + x)
                  end) None l.

(** [SELECT SUM(amount_tzs) FROM tabPayment WHERE docstatus = k].
    An aggregate without GROUP BY yields one row; a row is the 1-tuple
    of its cell. *)
Definition select_sum_amount (k : Z) (t : table) : list cell :=
  [sql_sum (amount_tzs <$> filter (λ p, docstatus p = k) t)].

(** Truthiness of a cell read back in Python: [None] and [0] are falsy. *)
Definition cell_truthy (c : cell) : bool :=
  match c with None => false | Some x => negb (x =? 0) end.

(** [rows[0][0] if rows and rows[0][0] else 0.0] *)
Definition first_or_zero (rows : list cell) : cell :=
  match rows with
  | [] => Some 0
  | c :: _ => if cell_truthy c then c else Some 0
  end.

Definition get_total_rent_paid_all (t : table) : cell :=
  let total_rent := select_sum_amount 1 t in
  first_or_zero total_rent.

Definition get_pending_rent (t : table) : cell :=
  let total_rent := select_sum_amount 0 t in
  first_or_zero total_rent.


(** The number an aggregate over the rows of status [k] stands for:
    the plain sum of their amounts, a NULL amount adding nothing. *)
Definition sum_status (k : Z) (t : table) : Z :=
  foldr (λ c r, default 0 c + r) 0 (amount_tzs <$> filter (λ p, docstatus p = k) t).


End Payments.

(** ** Role seeder (patches/create_landlord_tenant_roles.py) *)

Module Roles.

(** The fields of a Role document the patch assigns. *)
Record role_doc := mkRoleDoc {
  role_name : string;
  desk_access : Z;
  is_custom : Z
}.

(** A row of [tabRole]: the primary key [name] and the fields. *)
Record role := mkRole { name : string; fields : role_doc }.

Abbreviation store := (list role).

(** [frappe.db.exists("Role", n)]: is there a row whose primary key is [n]. *)
Definition db_exists (n : string) : M store bool :=
  gets (λ t, bool_decide (n ∈ name <$> t)).

(** [frappe.new_doc("Role")]: a document not yet in the table.  The
    patch assigns all three fields before it inserts. *)
Definition new_doc : role_doc :=
  {| role_name := ""; desk_access := 0; is_custom := 0 |}.

Definition set_role_name (v : string) (d : role_doc) : role_doc :=
  {| role_name := v; desk_access := desk_access d; is_custom := is_custom d |}.
Definition set_desk_access (v : Z) (d : role_doc) : role_doc :=
  {| role_name := role_name d; desk_access := v; is_custom := is_custom d |}.
Definition set_is_custom (v : Z) (d : role_doc) : role_doc :=
  {| role_name := role_name d; desk_access := desk_access d; is_custom := v |}.

(** [role.insert(ignore_permissions=True)].  A Role is named by its
    [role_name]; the table rejects a second row under a primary key it
    already holds. *)
Definition insert (d : role_doc) : M store unit :=
  λ t, if bool_decide (role_name d ∈ name <$> t)
       then (Raise (mkExn DuplicateEntryError (role_name d)), t)
       else (Ok tt, t ++ [mkRole (role_name d) d]).

(** The block the patch repeats for each of its two roles. *)
Definition ensure_role (n : string) : M store unit :=
  (found <- db_exists n ;;
   if negb found then
     let role := new_doc in
     let role := set_role_name n role in
     let role := set_desk_access 1 role in
     let role := set_is_custom 1 role in
     insert role
   else ret tt)%handler.

Definition execute : M store unit :=
  (found <- db_exists "Landlord" ;;
   (if negb found then
      let role := new_doc in
      let role := set_role_name "Landlord" role in
      let role := set_desk_access 1 role in
      let role := set_is_custom 1 role in
      insert role
    else ret tt) ;;;
   found <- db_exists "Tenant" ;;
   if negb found then
     let role := new_doc in
     let role := set_role_name "Tenant" role in
     let role := set_desk_access 1 role in
     let role := set_is_custom 1 role in
     insert role
   else ret tt)%handler.

(** Number of rows of the table named [n]. *)
Definition count_named (n : string) (t : store) : nat :=
  length (filter (λ r, name r = n) t).

(** The primary-key constraint of the table. *)
Definition primary_key (t : store) : Prop := NoDup (name <$> t).

(** The rows the patch has to add to a table: one for each of its two
    roles that the table does not name, Landlord first. *)
Definition missing_roles (t : store) : list role :=
  (if bool_decide ("Landlord" ∈ name <$> t) then []
   else [mkRole "Landlord" (mkRoleDoc "Landlord" 1 1)])
  ++ (if bool_decide ("Tenant" ∈ name <$> t) then []
      else [mkRole "Tenant" (mkRoleDoc "Tenant" 1 1)]).

End Roles.

(** ** Property repository *)

Module Properties.

(** The fields of a stored document, by field name. *)
Abbreviation fieldmap := (gmap string pyval).

(** A loaded document. *)
Record document := mkDoc {
  doctype : string;
  name : string;
  fields : fieldmap
}.

(** What [save_file] returns: the File document, of which the code
    reads [file_url]. *)
Record file_doc := mkFile { file_url : string }.

(** The framework services the handlers call, over a file storage [F]. *)
Class Framework (F : Type) := {
  (** [save_file(fname, content, dt, dn, folder=..., is_private=...)] *)
  save_file : pyval → pyval → string → string → string → Z →
              F → outcome file_doc * F;
  (** the name a new Property document gets from [insert] *)
  autoname : gmap string fieldmap → fieldmap → string;
  (** the checks of [insert] and [save]; [Some e] when they raise [e] *)
  validate : string → fieldmap → option exn;
  (** Python's [str] *)
  py_str : pyval → string;
  (** [frappe.get_traceback()] while [e] is being handled *)
  get_traceback : exn → string
}.

(** The store: the Property table by primary key, the file storage,
    the Error Log as (first, second) argument of [frappe.log_error].
    [upload_calls] is a ghost field: it records the calls of
    [handle_image_upload] as (field_name, file_data), and no code
    reads it. *)
Record store (F : Type) := mkStore {
  tabProperty : gmap string fieldmap;
  files : F;
  error_log : list (string * string);
  upload_calls : list (string * pyval)
}.
Arguments mkStore {F} _ _ _ _.
Arguments tabProperty {F} _.
Arguments files {F} _.
Arguments error_log {F} _.
Arguments upload_calls {F} _.

Section handlers.
Context {F : Type} `{!Framework F}.

Definition set_tabProperty (t : gmap string fieldmap) (s : store F) : store F :=
  mkStore t (files s) (error_log s) (upload_calls s).
Definition set_files (f : F) (s : store F) : store F :=
  mkStore (tabProperty s) f (error_log s) (upload_calls s).
Definition add_log (entry : string * string) (s : store F) : store F :=
  mkStore (tabProperty s) (files s) (error_log s ++ [entry]) (upload_calls s).
Definition add_call (c : string * pyval) (s : store F) : store F :=
  mkStore (tabProperty s) (files s) (error_log s) (upload_calls s ++ [c]).

(** [frappe.log_error(a, b)] *)
Definition log_error (a b : string) : M (store F) unit :=
  modify (add_log (a, b)).

(** [frappe.db.commit()].  Writes reach the store when they are
    made, so the commit has nothing left to do. *)
Definition db_commit : M (store F) unit := ret tt.

(** [frappe.get_doc("Property", name)] *)
Definition get_doc (dt n : string) : M (store F) document :=
  λ s, match tabProperty s !! n with
       | Some f => (Ok (mkDoc dt n f), s)
       | None => (Raise (mkExn DoesNotExistError (dt +:+ " " +:+ n +:+ " not found")), s)
       end.

(** [doc.set(field, value)] *)
Definition doc_set (d : document) (field : string) (v : pyval) : document :=
  mkDoc (doctype d) (name d) (<[field := v]> (fields d)).

(** [doc.save()] *)
Definition doc_save (d : document) : M (store F) unit :=
  λ s, match validate (doctype d) (fields d) with
       | Some e => (Raise e, s)
       | None => (Ok tt, set_tabProperty (<[name d := fields d]> (tabProperty s)) s)
       end.

(** [frappe.get_doc({...}).insert()]: names the new document and
    writes it. *)
Definition doc_insert (dt : string) (f : fieldmap) : M (store F) document :=
  λ s, match validate dt f with
       | Some e => (Raise e, s)
       | None =>
         let n := autoname (tabProperty s) f in
         match tabProperty s !! n with
         | Some _ => (Raise (mkExn DuplicateEntryError n), s)
         | None => (Ok (mkDoc dt n f), set_tabProperty (<[n := f]> (tabProperty s)) s)
         end
       end.

(** [d[k]] *)
Definition dict_item (d : fieldmap) (k : string) : M (store F) pyval :=
  match d !! k with
  | Some v => ret v
  | None => raise (mkExn KeyError k)
  end.

(** The call of [save_file], on the file storage of the store. *)
Definition call_save_file (fname content : pyval) (dt dn folder : string)
    (is_private : Z) : M (store F) file_doc :=
  λ s, let '(r, f') := save_file fname content dt dn folder is_private (files s) in
       (r, set_files f' s).

Definition handle_image_upload (doc : document) (field_name : string)
    (file_data : pyval) : M (store F) pyval :=
  (modify (add_call (field_name, file_data)) ;;;
   if negb (truthy file_data) then ret VNone
   else match file_data with
   | VStr s =>
     if startswith s "/files/" || startswith s "/private/files/"
     then ret file_data
     else ret VNone
   | VDict d =>
     let filename := dict_get d "filename" in
     let content := dict_get d "content" in
     if negb (truthy filename && truthy content) then ret VNone
     else
       file_doc <- call_save_file filename content (doctype doc) (name doc)
                     "Home/Attachments" 0 ;;
       ret (VStr (file_url file_doc))
   | _ => raise (mkExn AttributeError "object has no attribute 'get'")
   end)%handler.

Definition image_fields : list string :=
  ["image"; "image_1"; "image_2"; "image_3"; "image_4"].

Definition updateable_fields : list string :=
  ["title"; "location"; "price_tzs"; "bedrooms";
   "bathroom"; "status"; "description"; "square_meters"].

(** The body of the image loop of [create_property]. *)
Definition create_image_step (data : fieldmap) (property_doc : document)
    (field : string) : M (store F) document :=
  (if dict_has data field && truthy (dict_get data field) then
     v <- dict_item data field ;;
     file_url <- handle_image_upload property_doc field v ;;
     if truthy file_url then ret (doc_set property_doc field file_url)
     else ret property_doc
   else ret property_doc)%handler.

(** The body of the image loop of [update_property]. *)
Definition update_image_step (data : fieldmap) (property_doc : document)
    (field : string) : M (store F) document :=
  (if dict_has data field then
     v <- dict_item data field ;;
     file_url <- handle_image_upload property_doc field v ;;
     if truthy file_url then ret (doc_set property_doc field file_url)
     else ret property_doc
   else ret property_doc)%handler.

(** The loop of [update_property] over [updateable_fields]. *)
Definition set_updateable_fields (data : fieldmap) (property_doc : document)
    : document :=
  foldl (λ d field, if dict_has data field
                    then doc_set d field (dict_get data field)
                    else d) property_doc updateable_fields.

Definition create_property (data : fieldmap) : M (store F) fieldmap :=
  try_except
    (property_doc <- doc_insert "Property"
        (<["title" := dict_get data "title"]>
         (<["location" := dict_get data "location"]>
         (<["price_tzs" := dict_get data "price_tzs"]>
         (<["bedrooms" := dict_get data "bedrooms"]>
         (<["bathroom" := dict_get data "bathroom"]>
         (<["status" := dict_get data "status"]>
         (<["description" := dict_get data "description"]>
         (<["square_meters" := dict_get data "square_meters"]> ∅)))))))) ;;
     property_doc <- for_each image_fields (create_image_step data) property_doc ;;
     doc_save property_doc ;;;
     db_commit ;;;
     ret (<["message" := VStr ("Property '" +:+ py_str (dict_get (fields property_doc) "title")
                                 +:+ "' created successfully.")]>
          (<["property" := VStr (name property_doc)]> ∅)))%handler
    (λ e,
     (log_error (get_traceback e) "Property Creation Error" ;;;
      ret (<["error" := VStr ("An error occurred while creating the property: "
                                +:+ exn_str e)]> ∅))%handler).

Definition update_property (name : string) (data : fieldmap) : M (store F) fieldmap :=
  try_except
    (property_doc <- get_doc "Property" name ;;
     let property_doc := set_updateable_fields data property_doc in
     property_doc <- for_each image_fields (update_image_step data) property_doc ;;
     doc_save property_doc ;;;
     db_commit ;;;
     ret (<["message" := VStr ("Property '" +:+ py_str (dict_get (fields property_doc) "title")
                                 +:+ "' updated successfully.")]>
          (<["property" := VStr (Properties.name property_doc)]> ∅)))%handler
    (λ e,
     if decide (exn_cls e = DoesNotExistError) then
       (log_error (get_traceback e) "Property Update Error" ;;;
        ret (<["error" := VStr ("Property with name '" +:+ name
                                  +:+ "' does not exist.")]> ∅))%handler
     else
       (log_error (get_traceback e) "Property Update Error" ;;;
        ret (<["error" := VStr ("An error occurred while updating the property: "
                                  +:+ exn_str e)]> ∅))%handler).
End handlers.

(** *** Vocabulary of the statements *)

(** The call an iteration makes when it resolves a slot whenever the
    key is present. *)
Definition update_attempt (data : fieldmap) (field : string) : list (string * pyval) :=
  match data !! field with Some v => [(field, v)] | None => [] end.

(** The call an iteration makes when it resolves a slot only if the
    key is present and its value truthy. *)
Definition create_attempt (data : fieldmap) (field : string) : list (string * pyval) :=
  match data !! field with
  | Some v => if truthy v then [(field, v)] else []
  | None => []
  end.

(** The slots of [data] in the order of [image_fields], each with its
    value: the key is present. *)
Definition present_slots (data : fieldmap) : list (string * pyval) :=
  omap (λ field, (λ v, (field, v)) <$> data !! field) image_fields.

(** Of these, the slots whose value is truthy. *)
Definition truthy_slots (data : fieldmap) : list (string * pyval) :=
  filter (λ c, truthy c.2 = true) (present_slots data).

(** A value from which [handle_image_upload] gets no reference: an
    empty value, a string without a storage prefix, a structured
    payload without a (non-empty) filename or content. *)
Definition no_reference (v : pyval) : Prop :=
  truthy v = false
  ∨ (∃ s, v = VStr s ∧ startswith s "/files/" = false
          ∧ startswith s "/private/files/" = false)
  ∨ (∃ d, v = VDict d ∧ (truthy (dict_get d "filename") = false
                         ∨ truthy (dict_get d "content") = false)).

(** The stored value of field [field] of the Property [n], if any. *)
Definition stored_field {F} (n field : string) (s : store F) : option pyval :=
  tabProperty s !! n ≫= (λ f, f !! field).

(** The payload reports success. *)
Definition succeeded {S} (r : outcome fieldmap * S) : Prop :=
  ∃ payload, r.1 = Ok payload ∧ is_Some (payload !! "message").

(** *** The listing endpoint, and more vocabulary *)

(** The columns [get_properties] selects besides [name]. *)
Definition property_columns : list string :=
  ["title"; "location"; "price_tzs"; "bedrooms"; "bathroom";
   "square_meters"; "description"; "status"; "image"].

(** A row of the listing as a dict: a column the document does not hold
    reads as NULL. *)
Definition property_row (n : string) (f : fieldmap) : fieldmap :=
  <["name" := VStr n]> (list_to_map ((λ c, (c, dict_get f c)) <$> property_columns)).

(** [get_properties]: every row of the table, in the order the table
    yields them (the statement has no ORDER BY). *)
Definition get_properties {F} (s : store F) : list fieldmap :=
  (λ '(n, f), property_row n f) <$> map_to_list (tabProperty s).

(** The fields [create_property] builds the new document from. *)
Definition new_property_fields (data : fieldmap) : fieldmap :=
  <["title" := dict_get data "title"]>
  (<["location" := dict_get data "location"]>
  (<["price_tzs" := dict_get data "price_tzs"]>
  (<["bedrooms" := dict_get data "bedrooms"]>
  (<["bathroom" := dict_get data "bathroom"]>
  (<["status" := dict_get data "status"]>
  (<["description" := dict_get data "description"]>
  (<["square_meters" := dict_get data "square_meters"]> ∅))))))).

(** A value [handle_image_upload] cannot take: truthy, and neither a
    string nor a structured payload (a number, [True], a list). *)
Definition not_uploadable (v : pyval) : Prop :=
  truthy v = true ∧ (∀ s, v ≠ VStr s) ∧ (∀ d, v ≠ VDict d).


(** The payload reports an error. *)
Definition failed {S} (r : outcome fieldmap * S) : Prop :=
  ∃ payload, r.1 = Ok payload ∧ is_Some (payload !! "error")
             ∧ payload !! "message" = None.

(** *** A framework to run the handlers on concrete inputs

    File storage is the list of stored (filename, content) pairs; a
    stored file is served under [/files/]; documents are named by
    their title; no check rejects a document. *)
Module Sample.
Definition text (v : pyval) : string :=
  match v with
  | VStr s => s
  | VNone => "None"
  | VBool true => "True"
  | VBool false => "False"
  | _ => "<object>"
  end.

#[export] Instance framework : Framework (list (pyval * pyval)) := {|
  save_file fname content dt dn folder is_private fs :=
    (Ok (mkFile ("/files/" +:+ text fname)), fs ++ [(fname, content)]);
  autoname t f := text (dict_get f "title");
  validate dt f := None;
  py_str := text;
  get_traceback e := "Traceback: " +:+ exn_str e
|}.

Definition empty_store : store (list (pyval * pyval)) := mkStore ∅ [] [] [].

(** A store with one Property, [P1], whose [image] is set. *)
Definition one_property : store (list (pyval * pyval)) :=
  mkStore (<["P1" := <["title" := VStr "Flat"]>
                      (<["image" := VStr "/files/old.png"]> ∅)]> ∅) [] [] [].
End Sample.

(** *** A framework whose file storage has no attachment folder:
    [save_file] raises DoesNotExistError and stores nothing. *)
Module SampleNoFolder.
#[export] Instance framework : Framework unit := {|
  save_file fname content dt dn folder is_private fs :=
    (Raise (mkExn DoesNotExistError ("Folder " +:+ folder +:+ " not found")), fs);
  autoname t f := Sample.text (dict_get f "title");
  validate dt f := None;
  py_str := Sample.text;
  get_traceback e := "Traceback: " +:+ exn_str e
|}.

(** A store with one Property, [P1]. *)
Definition one_property : store unit :=
  mkStore (<["P1" := <["title" := VStr "Flat"]> ∅]> ∅) tt [] [].
End SampleNoFolder.

End Properties.

(** ** Tenant dashboard and active-property counter *)

Module Dashboard.

(** A nullable text column; [None] is SQL NULL. *)
Abbreviation cell := (option string).

(** A cell as the Python value the database driver hands over. *)
Definition cell_val (c : cell) : pyval :=
  match c with Some s => VStr s | None => VNone end.

Module User.
Record row := mk {
  name : string;
  email : cell;
  full_name : cell;
  user_image : cell;
  phone : cell;
  enabled : Z
}.
End User.

Module HasRole.
Record row := mk { parent : string; role : string }.
End HasRole.

Module Rental.
Record row := mk {
  name : string;
  property : string;
  tenant : string;
  status : string;
  start_date : pyval;
  end_date : pyval;
  monthly_rent : pyval;
  creation : Z
}.
End Rental.

(** The tables the two handlers read.  [tabProperty] is addressed by
    primary key only and holds the [title] column. *)
Record database := mkDb {
  tabUser : list User.row;
  tabHasRole : list HasRole.row;
  tabRental : list Rental.row;
  tabProperty : gmap string cell
}.

(** The store.  A statement can fail in the database layer for reasons
    the tables do not determine, so the store carries the schedule of
    such failures: entry [i] of [faults] decides the [i]-th statement
    executed from now on ([Some e]: it raises [e]); past the end of
    the schedule every statement succeeds.  An Error Log entry is the
    argument list of [frappe.log_error]. *)
Record store := mkStore {
  db : database;
  faults : list (option exn);
  error_log : list (list string)
}.

(** What the handlers take from their environment. *)
Class Env := {
  (** the collation order of [ORDER BY u.full_name] *)
  full_name_le : cell → cell → bool;
  (** [frappe.get_traceback()] while [e] is being handled *)
  get_traceback : exn → string
}.

(** [ORDER BY]: a stable insertion sort by [le]. *)
Fixpoint insert_by {A} (le : A → A → bool) (x : A) (l : list A) : list A :=
  match l with
  | [] => [x]
  | y :: l' => if le x y then x :: l else y :: insert_by le x l'
  end.

Definition order_by {A} (le : A → A → bool) (l : list A) : list A :=
  foldr (insert_by le) [] l.

(** [column = %s] with the Python value [param] bound to the placeholder. *)
Definition sql_eq (column : string) (param : pyval) : bool :=
  match param with
  | VStr s => String.eqb column s
  | _ => false
  end.

(** [x in v] for a string [x] and a list [v] of values. *)
Definition py_in (x : string) (v : pyval) : bool :=
  match v with
  | VList l => existsb (λ y, match y with VStr s => String.eqb x s | _ => false end) l
  | _ => false
  end.

Section queries.
Context `{!Env}.

(** The first statement of [get_users_with_roles]: join, filter,
    project, DISTINCT, ORDER BY; each row as a dict. *)
Definition select_users (d : database) : list (gmap string pyval) :=
  let joined :=
    u ← tabUser d; hr ← tabHasRole d;
    if bool_decide (User.name u = HasRole.parent hr) then [(u, hr)] else [] in
  let matching :=
    filter (λ '(u, hr), (HasRole.role hr = "Tenants" ∨ HasRole.role hr = "System Manager")
                        ∧ User.enabled u = 1) joined in
  let projected :=
    (λ '(u, _), (User.name u, User.email u, User.full_name u,
                 User.user_image u, User.phone u)) <$> matching in
  let ordered :=
    order_by (λ a b, full_name_le (a.1.1.2) (b.1.1.2)) (remove_dups projected) in
  (λ '(n, e, f, i, p),
     <["name" := VStr n]> (<["email" := cell_val e]> (<["full_name" := cell_val f]>
     (<["user_image" := cell_val i]> (<["phone" := cell_val p]> ∅))))) <$> ordered.

(** [SELECT role FROM `tabHas Role` WHERE parent = %s] *)
Definition select_roles (param : pyval) (d : database) : list (gmap string pyval) :=
  (λ hr, <["role" := VStr (HasRole.role hr)]> ∅)
    <$> filter (λ hr, sql_eq (HasRole.parent hr) param = true) (tabHasRole d).

(** The rental statement: LEFT JOIN on the primary key of
    [tabProperty], filter, [ORDER BY r.creation DESC LIMIT 1]. *)
Definition select_active_rental (param : pyval) (d : database)
    : list (gmap string pyval) :=
  let joined := (λ r, (r, tabProperty d !! Rental.property r)) <$> tabRental d in
  let matching :=
    filter (λ '(r, _), sql_eq (Rental.tenant r) param = true
                       ∧ Rental.status r = "Active") joined in
  let ordered :=
    order_by (λ a b, Rental.creation (b.1) <=? Rental.creation (a.1)) matching in
  (λ '(r, p),
     <["name" := VStr (Rental.name r)]> (<["property" := VStr (Rental.property r)]>
     (<["start_date" := Rental.start_date r]> (<["end_date" := Rental.end_date r]>
     (<["monthly_rent" := Rental.monthly_rent r]>
     (<["property_name" := cell_val (mjoin p)]> ∅))))))
    <$> take 1 ordered.

(** [frappe.get_all("Rental", filters={"tenant": t, "status": "Active"},
    fields=["property"], distinct=True)] *)
Definition get_all_distinct_property (t : string) (d : database)
    : list (gmap string pyval) :=
  (λ p, <["property" := VStr p]> ∅)
    <$> remove_dups (Rental.property
          <$> filter (λ r, Rental.tenant r = t ∧ Rental.status r = "Active")
                (tabRental d)).
End queries.

Section handlers.
Context `{!Env}.

(** Run one statement: consult the failure schedule, then read. *)
Definition run_query {A} (q : database → A) : M store A :=
  λ s, match faults s with
       | Some e :: fs => (Raise e, mkStore (db s) fs (error_log s))
       | None :: fs => (Ok (q (db s)), mkStore (db s) fs (error_log s))
       | [] => (Ok (q (db s)), s)
       end.

(** [frappe.log_error(...)] *)
Definition log_error (args : list string) : M store unit :=
  modify (λ s, mkStore (db s) (faults s) (error_log s ++ [args])).

(** First loop: [user['roles'] = [role.role for role in user_roles]]. *)
Definition attach_roles (user : gmap string pyval) : M store (gmap string pyval) :=
  (user_roles <- run_query (select_roles (dict_get user "name")) ;;
   ret (<["roles" := VList ((λ role, dict_get role "role") <$> user_roles)]> user))%handler.

(** Second loop: the rental fields of one user. *)
Definition attach_rental (user : gmap string pyval) : M store (gmap string pyval) :=
  (if py_in "Tenants" (default (VList []) (user !! "roles")) then
     rental <- run_query (select_active_rental (dict_get user "name")) ;;
     match rental with
     | rental_info :: _ =>
       ret (<["rental_status" := VStr "Active"]>
            (<["monthly_rent" := dict_get rental_info "monthly_rent"]>
            (<["lease_end" := dict_get rental_info "end_date"]>
            (<["lease_start" := dict_get rental_info "start_date"]>
            (<["property_name" := dict_get rental_info "property_name"]>
            (<["assigned_property" := dict_get rental_info "property"]> user))))))
     | [] =>
       ret (<["property_name" := VNone]>
            (<["assigned_property" := VNone]>
            (<["rental_status" := VStr "Inactive"]> user)))
     end
   else
     ret (<["property_name" := VNone]>
          (<["assigned_property" := VNone]>
          (<["rental_status" := VStr "N/A"]> user))))%handler.

(** The [try] block of [get_users_with_roles]. *)
Definition get_users_with_roles_body : M store (list (gmap string pyval)) :=
  (users_with_roles <- run_query select_users ;;
   users_with_roles <- map_m attach_roles users_with_roles ;;
   users_with_roles <- map_m attach_rental users_with_roles ;;
   ret users_with_roles)%handler.

Definition get_users_with_roles : M store (list (gmap string pyval)) :=
  try_except get_users_with_roles_body
    (λ e,
     (log_error ["Error in get_users_with_roles: " +:+ exn_str e] ;;;
      ret [])%handler).

Definition get_active_properties_count (tenant : string) : M store (gmap string pyval) :=
  try_except
    (rentals <- run_query (get_all_distinct_property tenant) ;;
     let active_properties_count := Z.of_nat (length rentals) in
     ret (<["message" := VStr "Active properties count fetched successfully."]>
          (<["tenant" := VStr tenant]>
          (<["active_properties_count" := VInt active_properties_count]> ∅))))%handler
    (λ e,
     (log_error [get_traceback e; "Active Properties Count Error"] ;;;
      ret (<["error" := VStr ("An error occurred while fetching active properties count: "
                                +:+ exn_str e)]>
           (<["tenant" := VStr tenant]>
           (<["active_properties_count" := VInt 0]> ∅))))%handler).
End handlers.

(** *** Vocabulary of the statements *)

(** The user [n] holds the role [r]. *)
Definition holds_role (n r : string) (d : database) : Prop :=
  ∃ hr, hr ∈ tabHasRole d ∧ HasRole.parent hr = n ∧ HasRole.role hr = r.

(** The rentals of tenant [n] whose status is Active. *)
Definition active_rentals (n : string) (d : database) : list Rental.row :=
  filter (λ r, Rental.tenant r = n ∧ Rental.status r = "Active") (tabRental d).

(** The set of property identifiers of these rentals. *)
Definition active_properties (n : string) (d : database) : gset string :=
  list_to_set (Rental.property <$> active_rentals n d).

(** The next statement is not scheduled to fail. *)
Definition next_statement_ok (s : store) : Prop :=
  match faults s with
  | Some _ :: _ => False
  | _ => True
  end.

(** *** An environment and a database to run the handlers on concrete
    inputs: NULL sorts first, then by code point. *)
Module Sample.
#[export] Instance env : Env := {|
  full_name_le a b :=
    match a, b with
    | None, _ => true
    | Some _, None => false
    | Some x, Some y => String.leb x y
    end;
  get_traceback e := "Traceback: " +:+ exn_str e
|}.

(** Two users: Asha is a tenant with an earlier and a later Active
    rental (and an expired one that is later still); Bakari is a
    System Manager. *)
Definition sample_db : database := {|
  tabUser :=
    [User.mk "bakari@example.com" (Some "bakari@example.com") (Some "Bakari")
       None None 1;
     User.mk "asha@example.com" (Some "asha@example.com") (Some "Asha")
       None (Some "0700") 1];
  tabHasRole :=
    [HasRole.mk "asha@example.com" "Tenants";
     HasRole.mk "bakari@example.com" "System Manager";
     HasRole.mk "bakari@example.com" "Tenants"];
  tabRental :=
    [Rental.mk "R-1" "P-1" "asha@example.com" "Active"
       (VStr "2024-01-01") (VStr "2024-12-31") (VInt 500000) 100;
     Rental.mk "R-2" "P-2" "asha@example.com" "Active"
       (VStr "2025-01-01") (VStr "2025-12-31") (VInt 650000) 200;
     Rental.mk "R-3" "P-3" "asha@example.com" "Expired"
       (VStr "2025-06-01") (VStr "2025-06-30") (VInt 1) 300;
     Rental.mk "R-4" "P-7" "bakari@example.com" "Active"
       (VStr "2025-02-01") (VStr "2025-03-01") (VInt 300000) 150;
     Rental.mk "R-5" "P-7" "bakari@example.com" "Active"
       (VStr "2025-03-01") (VStr "2025-04-01") (VInt 300000) 160];
  tabProperty := <["P-1" := Some "Garden Flat"]> (<["P-2" := Some "Sea View"]> ∅)
|}.

Definition sample_store : store := mkStore sample_db [] [].

(** The same store, with the third statement scheduled to fail. *)
Definition failing_store : store :=
  mkStore sample_db
    [None; None; Some (mkExn (OtherException "OperationalError") "server has gone away")]
    [].
(** Another database: Chausiku is a tenant whose only rental has
    expired; Daudi is a System Manager for whom the Rental table holds
    an Active rental all the same. *)
Definition second_db : database := {|
  tabUser :=
    [User.mk "chausiku@example.com" None (Some "Chausiku") None None 1;
     User.mk "daudi@example.com" None (Some "Daudi") None None 1;
     User.mk "eliya@example.com" None (Some "Eliya") None None 0];
  tabHasRole :=
    [HasRole.mk "chausiku@example.com" "Tenants";
     HasRole.mk "daudi@example.com" "System Manager";
     HasRole.mk "eliya@example.com" "Tenants"];
  tabRental :=
    [Rental.mk "R-8" "P-1" "chausiku@example.com" "Expired"
       (VStr "2023-01-01") (VStr "2023-12-31") (VInt 400000) 50;
     Rental.mk "R-9" "P-2" "daudi@example.com" "Active"
       (VStr "2025-01-01") (VStr "2025-12-31") (VInt 650000) 60];
  tabProperty := <["P-1" := Some "Garden Flat"]> (<["P-2" := Some "Sea View"]> ∅)
|}.

Definition second_store : store := mkStore second_db [] [].
End Sample.

End Dashboard.

(** ** Rental listing *)

Module Rentals.

(** A row of [tabRental], with the columns [get_rentals] selects and
    the creation time it orders by.  A nullable text column is an
    [option string]; a date is carried as text; the other columns are
    passed through as they are. *)
Module Row.
Record t := mk {
  name : string;
  property : option string;
  property_name : pyval;
  tenant : option string;
  tenant_name : pyval;
  status : option string;
  frequency : pyval;
  monthly_rent_tzs : pyval;
  start_date : option string;
  end_date : option string;
  total_rent_tzs : pyval;
  docstatus : pyval;
  creation : Z
}.
End Row.

(** The tables the handler reads; Property and User documents are
    loaded by primary key. *)
Record database := mkDb {
  tabRental : list Row.t;
  tabProperty : gmap string (gmap string pyval);
  tabUser : gmap string (gmap string pyval)
}.

(** The store, with the schedule of failing statements (see
    [Dashboard.store]) and the Error Log. *)
Record store := mkStore {
  db : database;
  faults : list (option exn);
  error_log : list (list string)
}.

(** What the handler takes from the framework. *)
Class Env := {
  (** does a row pass the [filters] of [frappe.get_all] *)
  matches : pyval → Row.t → bool;
  (** [frappe.utils.data.format_date] *)
  format_date : pyval → pyval;
  (** [frappe.get_traceback()] while [e] is being handled *)
  get_traceback : exn → string
}.

(** A selected row as a dict. *)
Definition to_dict (r : Row.t) : gmap string pyval :=
  <["name" := VStr (Row.name r)]>
  (<["property" := Dashboard.cell_val (Row.property r)]>
  (<["property_name" := Row.property_name r]>
  (<["tenant" := Dashboard.cell_val (Row.tenant r)]>
  (<["tenant_name" := Row.tenant_name r]>
  (<["status" := Dashboard.cell_val (Row.status r)]>
  (<["frequency" := Row.frequency r]>
  (<["monthly_rent_tzs" := Row.monthly_rent_tzs r]>
  (<["start_date" := Dashboard.cell_val (Row.start_date r)]>
  (<["end_date" := Dashboard.cell_val (Row.end_date r)]>
  (<["total_rent_tzs" := Row.total_rent_tzs r]>
  (<["docstatus" := Row.docstatus r]> ∅))))))))))).

(** [{"Active": "green", "Expired": "red", "Terminated": "orange"}
    .get(status, "gray")] *)
Definition status_color (status : pyval) : string :=
  match status with
  | VStr s =>
    if String.eqb s "Active" then "green"
    else if String.eqb s "Expired" then "red"
    else if String.eqb s "Terminated" then "orange"
    else "gray"
  | _ => "gray"
  end.

Section handlers.
Context `{!Env}.

(** The rows that pass the filters, latest creation first. *)
Definition selected (filters : pyval) (d : database) : list Row.t :=
  Dashboard.order_by (λ a b, Row.creation b <=? Row.creation a)
    (filter (λ r, matches filters r = true) (tabRental d)).

(** [frappe.get_all("Rental", fields=fields, filters=filters,
    order_by="creation desc")] *)
Definition get_all_rentals (filters : pyval) (d : database) : list (gmap string pyval) :=
  to_dict <$> selected filters d.

(** Run one statement: consult the failure schedule, then read. *)
Definition run_query {A} (q : database → outcome A) : M store A :=
  λ s, match faults s with
       | Some e :: fs => (Raise e, mkStore (db s) fs (error_log s))
       | None :: fs => (q (db s), mkStore (db s) fs (error_log s))
       | [] => (q (db s), s)
       end.

(** [frappe.get_doc(dt, n)] on the table [table]: a name that is in the
    table gives its document, any other raises DoesNotExistError. *)
Definition get_doc (table : database → gmap string (gmap string pyval))
    (dt : string) (n : pyval) : M store (gmap string pyval) :=
  run_query (λ d,
    match n with
    | VStr p =>
      match table d !! p with
      | Some f => Ok f
      | None => Raise (mkExn DoesNotExistError (dt +:+ " " +:+ p +:+ " not found"))
      end
    | _ => Raise (mkExn DoesNotExistError (dt +:+ " not found"))
    end).

(** [frappe.log_error(...)] *)
Definition log_error (args : list string) : M store unit :=
  modify (λ s, mkStore (db s) (faults s) (error_log s ++ [args])).

(** The body of the loop over the rentals. *)
Definition enrich (rental : gmap string pyval) : M store (gmap string pyval) :=
  (rental <-
     (if truthy (dict_get rental "property") then
        property_doc <- get_doc tabProperty "Property" (dict_get rental "property") ;;
        ret (<["property_details" :=
                 VDict (<["title" := dict_get property_doc "title"]>
                        (<["location" := dict_get property_doc "location"]>
                        (<["bedrooms" := dict_get property_doc "bedrooms"]>
                        (<["bathroom" := dict_get property_doc "bathroom"]>
                        (<["square_meters" := dict_get property_doc "square_meters"]>
                        (<["image" := dict_get property_doc "image"]> ∅))))))]> rental)
      else ret rental) ;;
   rental <-
     (if truthy (dict_get rental "tenant") then
        tenant <- get_doc tabUser "User" (dict_get rental "tenant") ;;
        ret (<["tenant_details" :=
                 VDict (<["full_name" := dict_get tenant "full_name"]>
                        (<["email" := dict_get tenant "email"]>
                        (<["phone" := dict_get tenant "phone"]>
                        (<["user_image" := dict_get tenant "user_image"]> ∅))))]> rental)
      else ret rental) ;;
   let rental :=
     if truthy (dict_get rental "start_date")
     then <["start_date" := format_date (dict_get rental "start_date")]> rental
     else rental in
   let rental :=
     if truthy (dict_get rental "end_date")
     then <["end_date" := format_date (dict_get rental "end_date")]> rental
     else rental in
   ret (<["status_context" := VStr (status_color (dict_get rental "status"))]> rental))%handler.

Definition get_rentals (filters : pyval) : M store (gmap string pyval) :=
  try_except
    (let filters := if negb (truthy filters) then VDict ∅ else filters in
     rentals <- run_query (λ d, Ok (get_all_rentals filters d)) ;;
     rentals <- map_m enrich rentals ;;
     ret (<["message" := VStr "Rentals fetched successfully"]>
          (<["rentals" := VList (VDict <$> rentals)]>
          (<["total_count" := VInt (Z.of_nat (length rentals))]> ∅))))%handler
    (λ e,
     (log_error [get_traceback e; "Rental Fetch Error"] ;;;
      ret (<["error" := VStr ("An error occurred while fetching rentals: "
                                +:+ exn_str e)]>
           (<["rentals" := VList []]> ∅)))%handler).
End handlers.

(** *** Vocabulary of the statements *)

(** The filters [get_all] is run with: an empty value is replaced by [{}]. *)
Definition effective_filters (filters : pyval) : pyval :=
  if negb (truthy filters) then VDict ∅ else filters.

(** The reference [c] names a document that the table [t] lacks. *)
Definition dangling (c : option string) (t : gmap string (gmap string pyval)) : Prop :=
  ∃ p, c = Some p ∧ p ≠ "" ∧ t !! p = None.


(** *** An environment and a database to run the handler on concrete
    inputs: [filters] is a dict of column values, of which the sample
    reads [status]; a date is formatted by putting it in brackets. *)
Module Sample.
#[export] Instance env : Env := {|
  matches filters r :=
    match filters with
    | VDict f =>
      match f !! "status" with
      | Some (VStr st) => bool_decide (Row.status r = Some st)
      | _ => true
      end
    | _ => true
    end;
  format_date v := match v with VStr d => VStr ("[" +:+ d +:+ "]") | _ => v end;
  get_traceback e := "Traceback: " +:+ exn_str e
|}.

(** Two rentals of properties that exist, and an expired one whose
    property has been deleted. *)
Definition sample_db : database := {|
  tabRental :=
    [Row.mk "R-1" (Some "P-1") (VStr "Garden Flat") (Some "asha@example.com") (VStr "Asha")
       (Some "Active") (VStr "Monthly") (VInt 500000) (Some "2024-01-01")
       (Some "2024-12-31") (VInt 6000000) (VInt 1) 100;
     Row.mk "R-2" (Some "P-2") (VStr "Sea View") None VNone
       (Some "Draft") (VStr "Monthly") (VInt 650000) None None (VInt 0) (VInt 0) 200;
     Row.mk "R-3" (Some "P-9") (VStr "Old Mill") (Some "asha@example.com") (VStr "Asha")
       (Some "Expired") (VStr "Monthly") (VInt 1) (Some "2020-01-01")
       (Some "2020-12-31") (VInt 12) (VInt 1) 50];
  tabProperty :=
    <["P-1" := <["title" := VStr "Garden Flat"]> ∅]>
    (<["P-2" := <["title" := VStr "Sea View"]> ∅]> ∅);
  tabUser := <["asha@example.com" := <["full_name" := VStr "Asha"]> ∅]> ∅
|}.

Definition sample_store : store := mkStore sample_db [] [].
End Sample.

End Rentals.

(** * Properties of the handlers *)

(** ** Payment aggregator *)

Module PaymentsFacts.
Import Payments.

Lemma first_or_zero_single (c : cell) : first_or_zero [c] = Some (default 0 c).
Proof.
  destruct c as [x|]; simpl; [|done].
  destruct (Z.eqb_spec x 0) as [->|]; done.
Qed.

Lemma sql_sum_from (acc : cell) (l : list cell) :
  default 0 (foldl (λ acc c, match c with
                             | None => acc
                             | Some x => Some (default 0 acc + x)
                             end) acc l)
  = default 0 acc + foldr (λ c r, default 0 c + r) 0 l.
Proof.
  revert acc. induction l as [|c l IH]; intros acc; simpl; [lia|].
  rewrite IH. destruct c; simpl; lia.
Qed.

Lemma sql_sum_value (l : list cell) :
  default 0 (sql_sum l) = foldr (λ c r, default 0 c + r) 0 l.
Proof. unfold sql_sum. rewrite sql_sum_from. done. Qed.

Lemma paid_value (t : table) : get_total_rent_paid_all t = Some (sum_status 1 t).
Proof.
  unfold get_total_rent_paid_all, select_sum_amount.
  rewrite first_or_zero_single, sql_sum_value. done.
Qed.

Lemma pending_value (t : table) : get_pending_rent t = Some (sum_status 0 t).
Proof.
  unfold get_pending_rent, select_sum_amount.
  rewrite first_or_zero_single, sql_sum_value. done.
Qed.

Lemma sum_status_cons (k : Z) (p : payment) (t : table) :
  sum_status k (p :: t)
  = (if decide (docstatus p = k) then default 0 (amount_tzs p) else 0) + sum_status k t.
Proof.
  unfold sum_status. rewrite filter_cons.
  destruct (decide (docstatus p = k)); [rewrite fmap_cons; simpl|]; lia.
Qed.

Lemma sum_status_none (k : Z) (t : table) :
  (∀ p, p ∈ t → docstatus p ≠ k) → sum_status k t = 0.
Proof.
  induction t as [|p t IH]; intros Hk; [done|].
  rewrite sum_status_cons, IH.
  - destruct (decide (docstatus p = k)) as [E|]; [|done].
    exfalso. apply (Hk p); [left | done].
  - intros q Hq. apply Hk. by right.
Qed.



(** C8: when no row has the status an aggregate selects, and so on an
    empty table, the aggregate is 0.0; neither aggregate is ever
    NULL. *)
Theorem aggregates_silent_zero (t : table) :
  ((∀ p, p ∈ t → docstatus p ≠ 1) → get_total_rent_paid_all t = Some 0)
  ∧ ((∀ p, p ∈ t → docstatus p ≠ 0) → get_pending_rent t = Some 0)
  ∧ get_total_rent_paid_all t ≠ None
  ∧ get_pending_rent t ≠ None.
Proof.
  rewrite paid_value, pending_value. repeat split; try done.
  - intros H. by rewrite sum_status_none.
  - intros H. by rewrite sum_status_none.
Qed.

Lemma aggregates_silent_zero_witness :
  get_total_rent_paid_all [] = Some 0 ∧ get_pending_rent [] = Some 0.
Proof.
  destruct (aggregates_silent_zero []) as (Hp & Hq & _ & _).
  split; [apply Hp | apply Hq]; intros p Hin; by apply elem_of_nil in Hin.
Defined.

(** *** Beyond the two statuses, and the shape of the table *)


Lemma sum_status_perm (k : Z) (t t' : table) :
  t ≡ₚ t' → sum_status k t = sum_status k t'.
Proof.
  induction 1 as [|p t t' _ IH|p q t|t t' t'' _ IH1 _ IH2].
  - done.
  - by rewrite !sum_status_cons, IH.
  - rewrite !sum_status_cons. lia.
  - by rewrite IH1.
Qed.

(** X2: the two totals do not depend on the order of the rows. *)
Theorem totals_permutation_invariant (t t' : table) :
  t ≡ₚ t' →
  get_total_rent_paid_all t = get_total_rent_paid_all t'
  ∧ get_pending_rent t = get_pending_rent t'.
Proof.
  intros Hp. rewrite !paid_value, !pending_value.
  by rewrite (sum_status_perm 1 t t' Hp), (sum_status_perm 0 t t' Hp).
Qed.

Lemma totals_permutation_invariant_witness :
  get_total_rent_paid_all [mkPayment (Some 250) 1; mkPayment (Some 100) 0; mkPayment None 1]
  = get_total_rent_paid_all [mkPayment None 1; mkPayment (Some 250) 1; mkPayment (Some 100) 0]
  ∧ get_pending_rent [mkPayment (Some 250) 1; mkPayment (Some 100) 0; mkPayment None 1]
    = get_pending_rent [mkPayment None 1; mkPayment (Some 250) 1; mkPayment (Some 100) 0].
Proof.
  apply totals_permutation_invariant.
  symmetry.
  apply (Permutation_cons_append [mkPayment (Some 250) 1; mkPayment (Some 100) 0]
           (mkPayment None 1)).
Defined.



End PaymentsFacts.

(** ** Role seeder *)

Module RolesFacts.
Import Roles.

Lemma execute_blocks :
  execute = bind (ensure_role "Landlord") (λ _, ensure_role "Tenant").
Proof. reflexivity. Qed.

(** The row a block inserts. *)
Lemma ensure_role_absent (n : string) (t : store) :
  n ∉ name <$> t →
  ensure_role n t = (Ok tt, t ++ [mkRole n (mkRoleDoc n 1 1)]).
Proof.
  intros Hn. unfold ensure_role, bind, db_exists, gets, insert. simpl.
  rewrite (bool_decide_eq_false_2 _ Hn). simpl.
  rewrite (bool_decide_eq_false_2 _ Hn). done.
Qed.

Lemma ensure_role_present (n : string) (t : store) :
  n ∈ name <$> t → ensure_role n t = (Ok tt, t).
Proof.
  intros Hn. unfold ensure_role, bind, db_exists, gets. simpl.
  rewrite bool_decide_eq_true_2 by done. done.
Qed.

Lemma count_named_app (n : string) (t u : store) :
  count_named n (t ++ u) = (count_named n t + count_named n u)%nat.
Proof. unfold count_named. by rewrite filter_app, length_app. Qed.

Lemma count_named_absent (n : string) (t : store) :
  n ∉ name <$> t → count_named n t = 0%nat.
Proof.
  unfold count_named. induction t as [|r t IH]; intros Hn; [done|].
  rewrite fmap_cons, not_elem_of_cons in Hn. destruct Hn as [Hr Ht].
  rewrite filter_cons_False by congruence. by apply IH.
Qed.

Lemma count_named_unique (n : string) (t : store) :
  primary_key t → n ∈ name <$> t → count_named n t = 1%nat.
Proof.
  unfold primary_key. induction t as [|r t IH]; intros Hk Hn.
  - by apply elem_of_nil in Hn.
  - rewrite fmap_cons in Hk, Hn. apply NoDup_cons in Hk as [Hr Hk].
    change (r :: t) with ([r] ++ t). rewrite count_named_app.
    apply elem_of_cons in Hn as [->|Hn].
    + rewrite (count_named_absent _ t) by done.
      unfold count_named. by rewrite filter_cons_True.
    + rewrite IH by done. unfold count_named.
      rewrite filter_cons_False; [done|]. intros E. by rewrite E in Hr.
Qed.

(** One block, on a table that satisfies its key constraint. *)
Lemma ensure_role_spec (n : string) (t : store) :
  primary_key t →
  ∃ t', ensure_role n t = (Ok tt, t')
        ∧ primary_key t'
        ∧ n ∈ name <$> t'
        ∧ (n ∈ name <$> t → t' = t)
        ∧ (∀ m, m ∈ name <$> t → m ∈ name <$> t')
        ∧ (∀ m, m ∈ name <$> t →
             filter (λ r, name r = m) t' = filter (λ r, name r = m) t).
Proof.
  intros Hk. destruct (decide (n ∈ name <$> t)) as [Hn|Hn].
  - exists t. rewrite ensure_role_present by done. done.
  - eexists. split; [by apply ensure_role_absent|].
    unfold primary_key. rewrite fmap_app. simpl. repeat split.
    + apply NoDup_app. split; [done|]. split.
      * intros m Hm Hm'. apply list_elem_of_singleton in Hm' as ->. done.
      * apply NoDup_singleton.
    + apply elem_of_app. right. by left.
    + done.
    + intros m Hm. apply elem_of_app. by left.
    + intros m Hm. rewrite filter_app, filter_cons_False, filter_nil.
      * by rewrite app_nil_r.
      * simpl. intros ->. done.
Qed.

(** C4: on a table that satisfies its primary-key constraint, the
    patch raises nothing, a second run raises nothing and changes
    nothing, and the table then holds exactly one role named Landlord
    and exactly one named Tenant, with no duplicate name; the rows of
    a role that existed before are left as they were, and when both
    existed the patch changes nothing at all. *)
Theorem execute_idempotent (t : store) :
  primary_key t →
  ∃ t1,
    execute t = (Ok tt, t1)
    ∧ execute t1 = (Ok tt, t1)
    ∧ count_named "Landlord" t1 = 1%nat
    ∧ count_named "Tenant" t1 = 1%nat
    ∧ primary_key t1
    ∧ (∀ n, n ∈ name <$> t →
         filter (λ r, name r = n) t1 = filter (λ r, name r = n) t)
    ∧ ("Landlord" ∈ name <$> t → "Tenant" ∈ name <$> t → t1 = t).
Proof.
  intros Hk.
  destruct (ensure_role_spec "Landlord" t Hk) as (ta & Ea & Hka & Hla & Hida & Hma & Hfa).
  destruct (ensure_role_spec "Tenant" ta Hka) as (tb & Eb & Hkb & Htb & Hidb & Hmb & Hfb).
  exists tb.
  assert (Hlb : "Landlord" ∈ name <$> tb) by by apply Hmb.
  assert (Erun : ∀ u, "Landlord" ∈ name <$> u → "Tenant" ∈ name <$> u →
                      execute u = (Ok tt, u)).
  { intros u Hl Ht. rewrite execute_blocks. unfold bind.
    rewrite (ensure_role_present "Landlord" u Hl).
    by rewrite (ensure_role_present "Tenant" u Ht). }
  repeat split.
  - rewrite execute_blocks. unfold bind. by rewrite Ea, Eb.
  - by apply Erun.
  - by apply count_named_unique.
  - by apply count_named_unique.
  - done.
  - intros n Hn. rewrite Hfb by by apply Hma. by apply Hfa.
  - intros Hl Ht. rewrite (Hida Hl) in *. by apply Hidb.
Qed.

Lemma execute_idempotent_witness :
  ∃ t1,
    execute [mkRole "Tenant" (mkRoleDoc "Tenant" 0 0);
             mkRole "Guest" (mkRoleDoc "Guest" 1 0)] = (Ok tt, t1)
    ∧ execute t1 = (Ok tt, t1)
    ∧ count_named "Landlord" t1 = 1%nat
    ∧ count_named "Tenant" t1 = 1%nat.
Proof.
  destruct (execute_idempotent
              [mkRole "Tenant" (mkRoleDoc "Tenant" 0 0);
               mkRole "Guest" (mkRoleDoc "Guest" 1 0)])
    as (t1 & H1 & H2 & H3 & H4 & _).
  - unfold primary_key. apply (bool_decide_unpack _). vm_compute. exact I.
  - exists t1. auto.
Defined.

(** *** Any table, with or without its key constraint *)

Lemma ensure_role_run (n : string) (t : store) :
  ensure_role n t
  = (Ok tt, t ++ (if bool_decide (n ∈ name <$> t) then []
                  else [mkRole n (mkRoleDoc n 1 1)])).
Proof.
  case_bool_decide as Hn.
  - rewrite ensure_role_present by done. by rewrite app_nil_r.
  - by apply ensure_role_absent.
Qed.

Lemma missing_roles_done (t : store) : missing_roles (t ++ missing_roles t) = [].
Proof.
  unfold missing_roles at 1.
  rewrite !bool_decide_eq_true_2; [done| |].
  - unfold missing_roles. rewrite !fmap_app, !elem_of_app.
    destruct (decide ("Tenant" ∈ name <$> t)); [by left|right; right].
    rewrite (bool_decide_eq_false_2 _ n). by left.
  - unfold missing_roles. rewrite !fmap_app, !elem_of_app.
    destruct (decide ("Landlord" ∈ name <$> t)); [by left|right; left].
    rewrite (bool_decide_eq_false_2 _ n). by left.
Qed.

(** X4: on every table, also one that breaks its key constraint, the
    patch raises nothing and only appends rows: one for each of the two
    role names the table lacks, Landlord first, with desk access and the
    custom flag set; no existing row is changed or removed, and a second
    run adds nothing. *)
Theorem execute_appends_missing_roles (t : store) :
  execute t = (Ok tt, t ++ missing_roles t)
  ∧ execute (t ++ missing_roles t) = (Ok tt, t ++ missing_roles t).
Proof.
  assert (Hrun : ∀ u, execute u = (Ok tt, u ++ missing_roles u)).
  { intros u. rewrite execute_blocks. unfold bind. rewrite ensure_role_run.
    rewrite ensure_role_run. unfold missing_roles. rewrite <- app_assoc.
    do 3 f_equal.
    apply (f_equal (λ b : bool, if b then [] else [mkRole "Tenant" (mkRoleDoc "Tenant" 1 1)])).
    apply bool_decide_ext. rewrite fmap_app, elem_of_app.
    split; [|by left]. intros [?|Hin]; [done|].
    case_bool_decide; [by apply elem_of_nil in Hin|].
    by apply list_elem_of_singleton in Hin. }
  split; [apply Hrun|]. by rewrite Hrun, missing_roles_done, app_nil_r.
Qed.

End RolesFacts.

(** ** Property repository *)

Module PropertiesFacts.
Import Properties.

Section facts.
Context {F : Type} `{!Framework F}.

(** C1: image slot resolution, by case on the value.  An empty value
    gives nothing; a string with a storage prefix is returned as it
    is; any other string gives nothing; a structured payload without
    a (non-empty) filename or content gives nothing; a structured
    payload with both is handed to [save_file], and the result is
    the [file_url] of the file it stored.  The store is touched by
    [save_file] alone. *)
Theorem handle_image_upload_cases (doc : document) (field_name : string)
    (file_data : pyval) (s : store F) :
  let s0 := add_call (field_name, file_data) s in
  (truthy file_data = false →
     handle_image_upload doc field_name file_data s = (Ok VNone, s0))
  ∧ (∀ url, file_data = VStr url →
       startswith url "/files/" = true ∨ startswith url "/private/files/" = true →
       handle_image_upload doc field_name file_data s = (Ok (VStr url), s0))
  ∧ (∀ str, file_data = VStr str →
       startswith str "/files/" = false → startswith str "/private/files/" = false →
       handle_image_upload doc field_name file_data s = (Ok VNone, s0))
  ∧ (∀ d, file_data = VDict d →
       truthy (dict_get d "filename") = false ∨ truthy (dict_get d "content") = false →
       handle_image_upload doc field_name file_data s = (Ok VNone, s0))
  ∧ (∀ d, file_data = VDict d →
       truthy (dict_get d "filename") = true → truthy (dict_get d "content") = true →
       handle_image_upload doc field_name file_data s
       = match save_file (dict_get d "filename") (dict_get d "content")
                 (doctype doc) (name doc) "Home/Attachments" 0 (files s) with
         | (Ok file, fs) => (Ok (VStr (file_url file)), set_files fs s0)
         | (Raise e, fs) => (Raise e, set_files fs s0)
         end).
Proof.
  intros s0. unfold handle_image_upload, bind, modify. fold s0.
  repeat split.
  - intros ->. done.
  - intros url -> Hp.
    assert (Ht : truthy (VStr url) = true).
    { destruct url; [by destruct Hp|done]. }
    rewrite Ht. simpl. by destruct Hp as [-> | ->]; rewrite ?orb_true_r.
  - intros str -> H1 H2. destruct (truthy (VStr str)); simpl; [|done].
    by rewrite H1, H2.
  - intros d -> Hd. destruct (truthy (VDict d)); simpl; [|done].
    by destruct Hd as [-> | ->]; rewrite ?andb_false_r.
  - intros d -> Hf Hc.
    assert (Ht : truthy (VDict d) = true).
    { simpl. apply negb_true_iff, bool_decide_eq_false. intros ->.
      unfold dict_get in Hf. by rewrite lookup_empty in Hf. }
    rewrite Ht, Hf, Hc. simpl. unfold call_save_file. simpl.
    destruct (save_file _ _ _ _ _ _ _) as [[file|e] fs]; done.
Qed.


(** *** The effect of one call and of one loop iteration *)

(** A call of [handle_image_upload] is recorded, and it leaves the
    Property table and the Error Log alone. *)
Lemma handle_image_upload_frame (doc : document) (field_name : string)
    (file_data : pyval) (s : store F) :
  tabProperty (handle_image_upload doc field_name file_data s).2 = tabProperty s
  ∧ error_log (handle_image_upload doc field_name file_data s).2 = error_log s
  ∧ upload_calls (handle_image_upload doc field_name file_data s).2
    = upload_calls s ++ [(field_name, file_data)].
Proof.
  unfold handle_image_upload, bind, modify. simpl.
  destruct (truthy file_data); simpl; [|done].
  destruct file_data as [ |b|z|str|l|d]; simpl; try done.
  - by destruct (_ || _).
  - destruct (negb _); simpl; [done|].
    unfold call_save_file, bind. simpl.
    by destruct (save_file _ _ _ _ _ _ _) as [[file|e] fs].
Qed.

(** From a value without reference the call returns [None]. *)
Lemma handle_image_upload_none (doc : document) (field_name : string)
    (file_data : pyval) (s : store F) :
  no_reference file_data →
  (handle_image_upload doc field_name file_data s).1 = Ok VNone.
Proof.
  unfold handle_image_upload, bind, modify. simpl.
  intros [Hf | [(str & -> & H1 & H2) | (d & -> & Hd)]].
  - by rewrite Hf.
  - destruct (truthy (VStr str)); simpl; [|done]. by rewrite H1, H2.
  - destruct (truthy (VDict d)); simpl; [|done].
    by destruct Hd as [-> | ->]; rewrite ?andb_false_r.
Qed.

Lemma update_image_step_frame (data : fieldmap) (d : document) (g : string)
    (s : store F) :
  tabProperty (update_image_step data d g s).2 = tabProperty s
  ∧ error_log (update_image_step data d g s).2 = error_log s
  ∧ upload_calls (update_image_step data d g s).2
    = upload_calls s ++ update_attempt data g.
Proof.
  unfold update_image_step, update_attempt, dict_has, dict_item.
  destruct (data !! g) as [v|] eqn:E; simpl.
  - unfold bind. simpl.
    pose proof (handle_image_upload_frame d g v s) as Hf.
    destruct (handle_image_upload d g v s) as [[u|e] s1]; simpl in *; [|done].
    by destruct (truthy u).
  - by rewrite app_nil_r.
Qed.

Lemma create_image_step_frame (data : fieldmap) (d : document) (g : string)
    (s : store F) :
  tabProperty (create_image_step data d g s).2 = tabProperty s
  ∧ error_log (create_image_step data d g s).2 = error_log s
  ∧ upload_calls (create_image_step data d g s).2
    = upload_calls s ++ create_attempt data g.
Proof.
  unfold create_image_step, create_attempt, dict_has, dict_item, dict_get.
  destruct (data !! g) as [v|] eqn:E; simpl.
  - destruct (truthy v); simpl; [|by rewrite app_nil_r].
    unfold bind. simpl.
    pose proof (handle_image_upload_frame d g v s) as Hf.
    destruct (handle_image_upload d g v s) as [[u|e] s1]; simpl in *; [|done].
    by destruct (truthy u).
  - by rewrite app_nil_r.
Qed.

(** An iteration returns the document as it got it, or with the
    slot set to a truthy reference. *)
Lemma update_image_step_doc (data : fieldmap) (d d' : document) (g : string)
    (s : store F) :
  (update_image_step data d g s).1 = Ok d' →
  d' = d ∨ ∃ u, truthy u = true ∧ d' = doc_set d g u.
Proof.
  unfold update_image_step, dict_item.
  destruct (dict_has data g); [|simpl; intros [= <-]; by left].
  destruct (data !! g) as [v|]; [|done].
  unfold bind. simpl.
  destruct (handle_image_upload d g v s) as [[u|e] s1]; [|done].
  destruct (truthy u) eqn:Hu; simpl; intros [= <-]; [right; eauto | by left].
Qed.

Lemma create_image_step_doc (data : fieldmap) (d d' : document) (g : string)
    (s : store F) :
  (create_image_step data d g s).1 = Ok d' →
  d' = d ∨ ∃ u, truthy u = true ∧ d' = doc_set d g u.
Proof.
  unfold create_image_step, dict_item.
  destruct (_ && _); [|simpl; intros [= <-]; by left].
  destruct (data !! g) as [v|]; [|done].
  unfold bind. simpl.
  destruct (handle_image_upload d g v s) as [[u|e] s1]; [|done].
  destruct (truthy u) eqn:Hu; simpl; intros [= <-]; [right; eauto | by left].
Qed.

(** An update iteration on a slot whose value gives no reference
    returns the document as it got it. *)
Lemma update_image_step_keep (data : fieldmap) (d : document) (g : string)
    (v : pyval) (s : store F) :
  data !! g = Some v → no_reference v →
  (update_image_step data d g s).1 = Ok d.
Proof.
  intros Hg Hv. unfold update_image_step, dict_item, dict_has.
  rewrite Hg, bool_decide_eq_true_2 by eauto.
  unfold bind. simpl.
  pose proof (handle_image_upload_none d g v s Hv) as Hn.
  destruct (handle_image_upload d g v s) as [[u|e] s1]; simpl in Hn; [|done].
  by injection Hn as ->.
Qed.

(** *** The image loop, for either iteration body *)

Section image_loop.
Variable step : document → string → M (store F) document.
Variable attempt : string → list (string * pyval).
Hypothesis step_frame : ∀ d g s,
  tabProperty (step d g s).2 = tabProperty s
  ∧ error_log (step d g s).2 = error_log s
  ∧ upload_calls (step d g s).2 = upload_calls s ++ attempt g.
Hypothesis step_doc : ∀ d d' g s,
  (step d g s).1 = Ok d' → d' = d ∨ ∃ u, truthy u = true ∧ d' = doc_set d g u.

(** The loop makes the calls of its iterations in order, up to the
    iteration that raises, and all of them when none does. *)
Lemma for_each_frame (l : list string) (d : document) (s : store F) :
  tabProperty (for_each l step d s).2 = tabProperty s
  ∧ error_log (for_each l step d s).2 = error_log s
  ∧ ∃ c, upload_calls (for_each l step d s).2 = upload_calls s ++ c
         ∧ c `prefix_of` (l ≫= attempt)
         ∧ (∀ d', (for_each l step d s).1 = Ok d' → c = l ≫= attempt).
Proof.
  revert d s. induction l as [|g l IH]; intros d s; simpl.
  - repeat split. exists []. by rewrite app_nil_r.
  - unfold bind. destruct (step_frame d g s) as (Ht & He & Hc).
    destruct (step d g s) as [[d1|e] s1]; simpl in *.
    + destruct (IH d1 s1) as (Ht' & He' & c & Hc' & Hp & Hfull).
      rewrite Ht', He', Ht, He. repeat split.
      exists (attempt g ++ c). rewrite Hc', Hc, app_assoc.
      repeat split; [by apply prefix_app|].
      intros d' Hd'. f_equal. by eapply Hfull.
    + repeat split; [done..|]. exists (attempt g).
      repeat split; [done|by apply prefix_app_r|done].
Qed.

(** The document after the loop: each field as before, or a slot
    of the loop set to a truthy reference. *)
Lemma for_each_doc (l : list string) (d d' : document) (s : store F) :
  (for_each l step d s).1 = Ok d' →
  name d' = name d ∧ doctype d' = doctype d
  ∧ ∀ k, fields d' !! k = fields d !! k
         ∨ (k ∈ l ∧ ∃ u, truthy u = true ∧ fields d' !! k = Some u).
Proof.
  revert d s. induction l as [|g l IH]; intros d s; simpl.
  - intros [= <-]. repeat split. by left.
  - unfold bind. destruct (step d g s) as [[d1|e] s1] eqn:E; [|done].
    intros Hl. destruct (IH _ _ Hl) as (Hn & Ht & Hk).
    pose proof (step_doc d d1 g s) as Hd. rewrite E in Hd.
    destruct (Hd eq_refl) as [-> | (u & Hu & ->)].
    + repeat split; [done..|]. intros k.
      destruct (Hk k) as [? | (? & ?)]; [by left|right]. split; [by right|done].
    + repeat split; [done..|]. intros k.
      destruct (Hk k) as [Ek | (? & ?)]; [|right; split; [by right|done]].
      simpl in Ek. destruct (decide (g = k)) as [->|Hne].
      * right. split; [by left|]. exists u. by rewrite Ek, lookup_insert_eq.
      * left. by rewrite Ek, lookup_insert_ne.
Qed.

(** A slot whose iteration hands the document back is as before
    after the loop. *)
Lemma for_each_keep (l : list string) (d d' : document) (s : store F) (k : string) :
  (∀ d s d', (step d k s).1 = Ok d' → d' = d) →
  (for_each l step d s).1 = Ok d' →
  fields d' !! k = fields d !! k.
Proof.
  intros Hkeep. revert d s. induction l as [|g l IH]; intros d s; simpl.
  - by intros [= <-].
  - unfold bind. destruct (step d g s) as [[d1|e] s1] eqn:E; [|done].
    intros Hl. rewrite (IH _ _ Hl).
    destruct (decide (g = k)) as [->|Hne].
    + pose proof (Hkeep d s d1) as Hk. rewrite E in Hk.
      by rewrite (Hk eq_refl).
    + pose proof (step_doc d d1 g s) as Hd. rewrite E in Hd.
      destruct (Hd eq_refl) as [-> | (u & Hu & ->)]; [done|].
      simpl. by rewrite lookup_insert_ne.
Qed.
End image_loop.

(** *** The two endpoints *)

Lemma present_slots_attempts (data : fieldmap) :
  present_slots data = image_fields ≫= update_attempt data.
Proof.
  unfold present_slots, update_attempt.
  generalize image_fields as l. induction l as [|g l IH]; [done|].
  cbn [omap list_omap mbind list_bind]. rewrite IH. by destruct (data !! g).
Qed.

Lemma truthy_slots_attempts (data : fieldmap) :
  truthy_slots data = image_fields ≫= create_attempt data.
Proof.
  unfold truthy_slots, present_slots, create_attempt.
  generalize image_fields as l. induction l as [|g l IH]; [done|].
  cbn [omap list_omap mbind list_bind].
  destruct (data !! g) as [v|]; simpl; [|done].
  rewrite filter_cons. simpl. rewrite IH.
  destruct (truthy v); by case_decide.
Qed.

Lemma image_field_not_scalar (g : string) :
  g ∈ image_fields → g ∉ updateable_fields.
Proof.
  revert g. apply Forall_forall. apply (bool_decide_unpack _). vm_compute. exact I.
Qed.

(** The scalar loop of [update_property] keeps the identity of the
    document and every field outside [updateable_fields]. *)
Lemma set_updateable_fields_frame (data : fieldmap) (d : document) :
  name (set_updateable_fields data d) = name d
  ∧ doctype (set_updateable_fields data d) = doctype d
  ∧ ∀ k, k ∉ updateable_fields →
         fields (set_updateable_fields data d) !! k = fields d !! k.
Proof.
  unfold set_updateable_fields. generalize updateable_fields as l.
  intros l. revert d. induction l as [|g l IH]; intros d; [done|].
  cbn [foldl]. destruct (IH (if dict_has data g
                             then doc_set d g (dict_get data g) else d))
    as (Hn & Ht & Hk).
  rewrite Hn, Ht. repeat split; [by destruct (dict_has data g)..|].
  intros k Hnotin. apply not_elem_of_cons in Hnotin as [Hne Hnotin].
  rewrite Hk by done. destruct (dict_has data g); [|done].
  simpl. by rewrite lookup_insert_ne.
Qed.

(** On a missing identifier: the payload and the store. *)
Lemma update_property_missing (name : string) (data : fieldmap) (s : store F) :
  tabProperty s !! name = None →
  update_property name data s
  = (Ok (<["error" := VStr ("Property with name '" +:+ name +:+ "' does not exist.")]> ∅),
     add_log (get_traceback
                (mkExn DoesNotExistError ("Property" +:+ " " +:+ name +:+ " not found")),
              "Property Update Error") s).
Proof.
  intros Hn. unfold update_property, try_except, bind, get_doc. rewrite Hn. done.
Qed.

(** The Property table after [update_property]: as before, or with
    the document the image loop returned written under [name]. *)
Lemma update_property_table (name : string) (data : fieldmap) (s : store F) :
  tabProperty (update_property name data s).2 = tabProperty s
  ∨ ∃ f0 d1,
      tabProperty s !! name = Some f0
      ∧ (for_each image_fields (update_image_step data)
           (set_updateable_fields data (mkDoc "Property" name f0)) s).1 = Ok d1
      ∧ tabProperty (update_property name data s).2
        = <[name := fields d1]> (tabProperty s).
Proof.
  destruct (tabProperty s !! name) as [f0|] eqn:Hn;
    [|left; by rewrite update_property_missing].
  unfold update_property, try_except, bind, get_doc. rewrite Hn.
  destruct (set_updateable_fields_frame data (mkDoc "Property" name f0))
    as (Hname0 & _).
  set (d0 := set_updateable_fields _ _) in *.
  destruct (for_each_frame _ _ (update_image_step_frame data) image_fields d0 s)
    as (Ht & _ & _).
  pose proof (for_each_doc _ (update_image_step_doc data) image_fields d0) as Hd.
  destruct (for_each image_fields (update_image_step data) d0 s) as [[d1|e] s1] eqn:E;
    cbn [fst snd] in *.
  - unfold doc_save. destruct (validate _ _) as [e|]; cbn [fst snd].
    + left. by destruct (decide _).
    + right. exists f0, d1.
      destruct (Hd d1 s) as (Hname & _); [by rewrite E|].
      subst d0. repeat split; [by rewrite E|]. cbn. by rewrite Hname, Hname0, Ht.
  - left. by destruct (decide _).
Qed.

Lemma error_payload_not_success {S} (msg : string) (s : S) :
  ¬ succeeded (Ok (<["error" := VStr msg]> (∅ : fieldmap)), s).
Proof.
  intros (payload & [= <-] & x & Hx).
  by rewrite lookup_insert_ne, lookup_empty in Hx.
Qed.

(** The calls [update_property] makes. *)
Lemma update_property_calls (name : string) (data : fieldmap) (s : store F) :
  ∃ c, upload_calls (update_property name data s).2 = upload_calls s ++ c
       ∧ c `prefix_of` present_slots data
       ∧ (succeeded (update_property name data s) → c = present_slots data).
Proof.
  rewrite present_slots_attempts.
  destruct (tabProperty s !! name) as [f0|] eqn:Hn.
  - unfold update_property, try_except, bind, get_doc. rewrite Hn.
    set (d0 := set_updateable_fields _ _).
    destruct (for_each_frame _ _ (update_image_step_frame data) image_fields d0 s)
      as (_ & _ & c & Hc & Hp & Hfull).
    exists c.
    destruct (for_each image_fields (update_image_step data) d0 s) as [[d1|e] s1];
      cbn [fst snd] in *.
    + unfold doc_save. destruct (validate _ _) as [e|]; cbn [fst snd].
      * destruct (decide _); (repeat split; [done..|]);
          intros Hs; by apply error_payload_not_success in Hs.
      * repeat split; [done..|]. intros _. by apply (Hfull d1).
    + destruct (decide _); (repeat split; [done..|]);
        intros Hs; by apply error_payload_not_success in Hs.
  - rewrite update_property_missing by done. exists []. simpl.
    rewrite app_nil_r. repeat split; [apply prefix_nil|].
    intros Hs. by apply error_payload_not_success in Hs.
Qed.

(** The calls [create_property] makes. *)
Lemma create_property_calls (data : fieldmap) (s : store F) :
  ∃ c, upload_calls (create_property data s).2 = upload_calls s ++ c
       ∧ c `prefix_of` truthy_slots data
       ∧ (succeeded (create_property data s) → c = truthy_slots data).
Proof.
  rewrite truthy_slots_attempts.
  unfold create_property, try_except, bind.
  set (f := <["title" := _]> _).
  unfold doc_insert.
  destruct (validate "Property" f) as [e|]; cbv beta iota.
  { exists []. simpl. rewrite app_nil_r. repeat split; [apply prefix_nil|].
    intros Hs. by apply error_payload_not_success in Hs. }
  destruct (tabProperty s !! autoname (tabProperty s) f); cbv beta iota.
  { exists []. simpl. rewrite app_nil_r. repeat split; [apply prefix_nil|].
    intros Hs. by apply error_payload_not_success in Hs. }
  set (d0 := mkDoc _ _ _). set (s0 := set_tabProperty _ _).
  destruct (for_each_frame _ _ (create_image_step_frame data) image_fields d0 s0)
    as (_ & _ & c & Hc & Hp & Hfull).
  exists c.
  destruct (for_each image_fields (create_image_step data) d0 s0) as [[d1|e] s1];
    cbn [fst snd] in *.
  - unfold doc_save. destruct (validate _ _) as [e|]; cbn [fst snd].
    + repeat split; [done..|]. intros Hs. by apply error_payload_not_success in Hs.
    + repeat split; [done..|]. intros _. by apply (Hfull d1).
  - repeat split; [done..|]. intros Hs. by apply error_payload_not_success in Hs.
Qed.

(** C7: on an identifier that is not in the Property table,
    [update_property] returns the payload whose [error] is
    "Property with name '<name>' does not exist.", which is not the
    payload of the generic handler for any exception. *)
Theorem update_property_not_found (name : string) (data : fieldmap) (s : store F) :
  tabProperty s !! name = None →
  (update_property name data s).1
  = Ok (<["error" := VStr ("Property with name '" +:+ name +:+ "' does not exist.")]> ∅)
  ∧ ∀ e, (update_property name data s).1
         ≠ Ok (<["error" := VStr ("An error occurred while updating the property: "
                                    +:+ exn_str e)]> ∅).
Proof.
  intros Hn. rewrite update_property_missing by done. split; [done|].
  intros e Heq.
  assert (Hl := f_equal (λ r, match r with
                              | Ok m => (m : fieldmap) !! "error"
                              | Raise _ => None
                              end) Heq).
  cbv beta iota in Hl. rewrite !lookup_insert_eq in Hl. discriminate Hl.
Qed.

(** C2: the two image loops differ in their guard.  An iteration of
    the update loop calls [handle_image_upload] on a slot exactly
    when the key is in [data]; an iteration of the create loop only
    when the value is also truthy.  An endpoint makes these calls in
    slot order, up to the first statement that raises, and all of
    them when it reports success.  So a slot mapped to an empty
    value is resolved by the update loop and skipped by the create
    loop. *)
Theorem image_guard_asymmetry (data : fieldmap) :
  (∀ d g (s : store F),
     upload_calls (update_image_step data d g s).2
     = upload_calls s ++ match data !! g with
                         | Some v => [(g, v)]
                         | None => []
                         end)
  ∧ (∀ d g (s : store F),
       upload_calls (create_image_step data d g s).2
       = upload_calls s ++ match data !! g with
                           | Some v => if truthy v then [(g, v)] else []
                           | None => []
                           end)
  ∧ (∀ name (s : store F),
       ∃ c, upload_calls (update_property name data s).2 = upload_calls s ++ c
            ∧ c `prefix_of` present_slots data
            ∧ (succeeded (update_property name data s) → c = present_slots data))
  ∧ (∀ s : store F,
       ∃ c, upload_calls (create_property data s).2 = upload_calls s ++ c
            ∧ c `prefix_of` truthy_slots data
            ∧ (succeeded (create_property data s) → c = truthy_slots data))
  ∧ (∀ g v, g ∈ image_fields → data !! g = Some v → truthy v = false →
       (g, v) ∈ present_slots data ∧ (g, v) ∉ truthy_slots data).
Proof.
  split; [intros d g s; apply update_image_step_frame|].
  split; [intros d g s; apply create_image_step_frame|].
  split; [intros name s; apply update_property_calls|].
  split; [intros s; apply create_property_calls|].
  intros g v Hg Hv Hf. split.
  - unfold present_slots. apply list_elem_of_omap. exists g. by rewrite Hv.
  - unfold truthy_slots. intros Hin. apply list_elem_of_filter in Hin as [Ht _].
    simpl in Ht. congruence.
Qed.

(** C10: when an image slot of [data] holds a value from which no
    reference results, [update_property] leaves the stored value of
    that image field as it was; and whatever [data] holds, an image
    field after the update is as it was or holds a truthy reference,
    so that it is never cleared. *)
Theorem update_property_keeps_image (name : string) (data : fieldmap)
    (s : store F) (g : string) :
  g ∈ image_fields →
  (∀ v, data !! g = Some v → no_reference v →
     ∀ n, stored_field n g (update_property name data s).2 = stored_field n g s)
  ∧ (∀ n, stored_field n g (update_property name data s).2 = stored_field n g s
          ∨ ∃ u, truthy u = true
                 ∧ stored_field n g (update_property name data s).2 = Some u).
Proof.
  intros Hg. unfold stored_field.
  destruct (update_property_table name data s)
    as [-> | (f0 & d1 & Hn & Hloop & ->)]; [split; [done|by left]|].
  destruct (set_updateable_fields_frame data (mkDoc "Property" name f0))
    as (_ & _ & Hscalar).
  specialize (Hscalar g (image_field_not_scalar g Hg)). simpl in Hscalar.
  split.
  - intros v Hv Hnone n. destruct (decide (name = n)) as [<-|Hne];
      [|by rewrite lookup_insert_ne].
    rewrite lookup_insert_eq, Hn. simpl.
    rewrite <- Hscalar. eapply for_each_keep; [apply update_image_step_doc| |done].
    intros d s' d' Hd'.
    rewrite (update_image_step_keep data d g v s' Hv Hnone) in Hd'. congruence.
  - intros n. destruct (decide (name = n)) as [<-|Hne];
      [|left; by rewrite lookup_insert_ne].
    rewrite lookup_insert_eq, Hn. simpl.
    destruct (for_each_doc _ (update_image_step_doc data) _ _ _ _ Hloop)
      as (_ & _ & Hk).
    destruct (Hk g) as [E | (_ & u & Hu & E)].
    + left. by rewrite E.
    + right. eauto.
Qed.

End facts.

(** *** The statements at concrete inputs *)

Import Sample.

Lemma handle_image_upload_cases_witness :
  handle_image_upload (mkDoc "Property" "P1" ∅) "image"
    (VStr "/files/a.png") one_property
  = (Ok (VStr "/files/a.png"), add_call ("image", VStr "/files/a.png") one_property)
  ∧ handle_image_upload (mkDoc "Property" "P1" ∅) "image"
      (VStr "http://example.com/a.png") one_property
    = (Ok VNone, add_call ("image", VStr "http://example.com/a.png") one_property).
Proof.
  split.
  - destruct (handle_image_upload_cases (mkDoc "Property" "P1" ∅) "image"
                (VStr "/files/a.png") one_property) as (_ & Hurl & _).
    apply (Hurl "/files/a.png"); [reflexivity|]. left. reflexivity.
  - destruct (handle_image_upload_cases (mkDoc "Property" "P1" ∅) "image"
                (VStr "http://example.com/a.png") one_property)
      as (_ & _ & Hother & _).
    apply (Hother "http://example.com/a.png"); reflexivity.
Defined.

Lemma update_property_not_found_witness :
  (update_property "P9" (<["title" := VStr "Loft"]> ∅) one_property).1
  = Ok (<["error" := VStr "Property with name 'P9' does not exist."]> ∅).
Proof.
  destruct (update_property_not_found "P9" (<["title" := VStr "Loft"]> ∅) one_property)
    as [Hpayload _]; [reflexivity|].
  exact Hpayload.
Defined.

Lemma image_guard_asymmetry_witness :
  (∃ c, upload_calls (update_property "P1" (<["image" := VStr ""]> ∅) one_property).2
        = upload_calls one_property ++ c
        ∧ c = present_slots (<["image" := VStr ""]> ∅))
  ∧ (∃ c, upload_calls (create_property (<["image" := VStr ""]> ∅) empty_store).2
          = upload_calls empty_store ++ c
          ∧ c = truthy_slots (<["image" := VStr ""]> ∅))
  ∧ ("image", VStr "") ∈ present_slots (<["image" := VStr ""]> ∅)
  ∧ ("image", VStr "") ∉ truthy_slots (<["image" := VStr ""]> ∅).
Proof.
  destruct (image_guard_asymmetry (F := list (pyval * pyval)) (<["image" := VStr ""]> ∅))
    as (_ & _ & Hupdate & Hcreate & Hslot).
  split; [|split].
  - destruct (Hupdate "P1" one_property) as (c & Hcalls & _ & Hc).
    exists c. split; [exact Hcalls|]. apply Hc.
    exists (<["message" := VStr "Property 'Flat' updated successfully."]>
            (<["property" := VStr "P1"]> ∅)).
    split; [vm_compute; reflexivity|].
    exists (VStr "Property 'Flat' updated successfully."). vm_compute. reflexivity.
  - destruct (Hcreate empty_store) as (c & Hcalls & _ & Hc).
    exists c. split; [exact Hcalls|]. apply Hc.
    exists (<["message" := VStr "Property 'None' created successfully."]>
            (<["property" := VStr "None"]> ∅)).
    split; [vm_compute; reflexivity|].
    exists (VStr "Property 'None' created successfully."). vm_compute. reflexivity.
  - apply (Hslot "image" (VStr "")); [constructor|reflexivity|reflexivity].
Defined.

(** The calls of the two endpoints on a slot mapped to the empty
    string, evaluated. *)
Example update_property_resolves_empty_slot :
  upload_calls (update_property "P1" (<["image" := VStr ""]> ∅) one_property).2
  = [("image", VStr "")].
Proof. vm_compute. reflexivity. Qed.

Example create_property_skips_empty_slot :
  upload_calls (create_property (<["image" := VStr ""]> ∅) empty_store).2 = [].
Proof. vm_compute. reflexivity. Qed.

Lemma update_property_keeps_image_witness :
  stored_field "P1" "image"
    (update_property "P1" (<["image" := VStr ""]> (<["title" := VStr "Loft"]> ∅))
       one_property).2
  = Some (VStr "/files/old.png")
  ∧ stored_field "P1" "title"
      (update_property "P1" (<["image" := VStr ""]> (<["title" := VStr "Loft"]> ∅))
         one_property).2
    = Some (VStr "Loft").
Proof.
  split; [|vm_compute; reflexivity].
  destruct (update_property_keeps_image "P1"
              (<["image" := VStr ""]> (<["title" := VStr "Loft"]> ∅))
              one_property "image") as [Hkeep _]; [constructor|].
  rewrite (Hkeep (VStr "") eq_refl (or_introl eq_refl) "P1").
  vm_compute. reflexivity.
Defined.

(** *** Further properties of the repository *)

Section more_facts.
Context {F : Type} `{!Framework F}.

(** **** What a call and a loop can do *)

Lemma handle_image_upload_result (doc : document) (field_name : string)
    (file_data r : pyval) (s : store F) :
  (handle_image_upload doc field_name file_data s).1 = Ok r →
  r = VNone ∨ ∃ u, r = VStr u.
Proof.
  unfold handle_image_upload, bind, modify. simpl.
  destruct (truthy file_data); simpl; [|intros [= <-]; by left].
  destruct file_data as [ |b|z|str|l|d]; simpl; try done.
  - destruct (_ || _); intros [= <-]; [right; eauto|by left].
  - destruct (negb _); simpl; [intros [= <-]; by left|].
    unfold call_save_file, bind. simpl.
    destruct (save_file _ _ _ _ _ _ _) as [[file|e] fs]; simpl; [|done].
    intros [= <-]. right. eauto.
Qed.

Lemma handle_image_upload_rejects (doc : document) (field_name : string)
    (file_data : pyval) (s : store F) :
  not_uploadable file_data →
  (handle_image_upload doc field_name file_data s).1
  = Raise (mkExn AttributeError "object has no attribute 'get'").
Proof.
  intros (Ht & Hs & Hd). unfold handle_image_upload, bind, modify. simpl.
  rewrite Ht. simpl. destruct file_data as [ |b|z|str|l|d]; try done.
  - by destruct (Hs str).
  - by destruct (Hd d).
Qed.

Lemma truthy_string (u : string) : truthy (VStr u) = true → u ≠ "".
Proof. by intros Ht ->. Qed.

(** An iteration hands the document back, or sets its slot to a
    non-empty string. *)
Lemma update_image_step_string (data : fieldmap) (d d' : document) (g : string)
    (s : store F) :
  (update_image_step data d g s).1 = Ok d' →
  d' = d ∨ ∃ u, u ≠ "" ∧ d' = doc_set d g (VStr u).
Proof.
  unfold update_image_step, dict_item.
  destruct (dict_has data g); [|simpl; intros [= <-]; by left].
  destruct (data !! g) as [v|]; [|done].
  unfold bind. simpl.
  destruct (handle_image_upload d g v s) as [[r|e] s1] eqn:E; [|done].
  pose proof (handle_image_upload_result d g v r s) as Hr. rewrite E in Hr.
  destruct (truthy r) eqn:Ht; simpl; intros [= <-]; [|by left].
  destruct (Hr eq_refl) as [-> | [u ->]]; [done|].
  right. exists u. split; [by apply truthy_string|done].
Qed.


Section image_loop_strings.
Variable step : document → string → M (store F) document.
Hypothesis step_string : ∀ d d' g s,
  (step d g s).1 = Ok d' → d' = d ∨ ∃ u, u ≠ "" ∧ d' = doc_set d g (VStr u).

(** After the loop a field is as before, or a slot of the loop that
    holds a non-empty string. *)
Lemma for_each_strings (l : list string) (d d' : document) (s : store F) :
  (for_each l step d s).1 = Ok d' →
  name d' = name d
  ∧ ∀ k, fields d' !! k = fields d !! k
         ∨ (k ∈ l ∧ ∃ u, u ≠ "" ∧ fields d' !! k = Some (VStr u)).
Proof.
  revert d s. induction l as [|g l IH]; intros d s; simpl.
  - intros [= <-]. split; [done|]. by left.
  - unfold bind. destruct (step d g s) as [[d1|e] s1] eqn:E; [|done].
    intros Hl. destruct (IH _ _ Hl) as (Hn & Hk).
    pose proof (step_string d d1 g s) as Hd. rewrite E in Hd.
    destruct (Hd eq_refl) as [-> | (u & Hu & ->)].
    + split; [done|]. intros k.
      destruct (Hk k) as [? | (? & ?)]; [by left|right]. split; [by right|done].
    + split; [done|]. intros k.
      destruct (Hk k) as [Ek | (? & ?)]; [|right; split; [by right|done]].
      simpl in Ek. destruct (decide (g = k)) as [->|Hne].
      * right. split; [by left|]. exists u. by rewrite Ek, lookup_insert_eq.
      * left. by rewrite Ek, lookup_insert_ne.
Qed.

(** A slot that its iteration always sets to [x] holds [x] after a
    loop that passes it once. *)
Lemma for_each_sets (l : list string) (d d' : document) (s : store F)
    (g : string) (x : pyval) :
  NoDup l → g ∈ l →
  (∀ d s d', (step d g s).1 = Ok d' → fields d' !! g = Some x) →
  (for_each l step d s).1 = Ok d' →
  fields d' !! g = Some x.
Proof.
  intros Hnd Hg Hset. revert d s.
  induction l as [|h l IH]; intros d s; [by apply elem_of_nil in Hg|].
  apply NoDup_cons in Hnd as [Hh Hnd]. simpl. unfold bind.
  destruct (step d h s) as [[d1|e] s1] eqn:E; [|done]. intros Hl.
  apply elem_of_cons in Hg as [->|Hg].
  - destruct (for_each_strings l d1 d' s1 Hl) as (_ & Hk).
    destruct (Hk h) as [-> | (Hin & _)]; [|done].
    apply (Hset d s). by rewrite E.
  - by apply (IH Hnd Hg d1 s1).
Qed.
End image_loop_strings.

(** A loop with a slot whose iteration always raises, raises. *)
Lemma for_each_raises (step : document → string → M (store F) document)
    (l : list string) (d : document) (s : store F) (g : string) :
  g ∈ l →
  (∀ d s, ∃ e, (step d g s).1 = Raise e) →
  ∃ e, (for_each l step d s).1 = Raise e.
Proof.
  intros Hg Hraise. revert d s.
  induction l as [|h l IH]; intros d s; [by apply elem_of_nil in Hg|].
  simpl. unfold bind. apply elem_of_cons in Hg as [->|Hg].
  - destruct (Hraise d s) as [e He].
    destruct (step d h s) as [[d1|e'] s1]; [done|]. by exists e'.
  - destruct (step d h s) as [[d1|e'] s1]; [|by exists e'].
    by apply IH.
Qed.

(** **** The two endpoints, statement by statement *)

Lemma update_property_run (name : string) (data : fieldmap) (s : store F) :
  update_property name data s
  = let handler e s' :=
      (Ok (if decide (exn_cls e = DoesNotExistError)
           then <["error" := VStr ("Property with name '" +:+ name
                                      +:+ "' does not exist.")]> ∅
           else <["error" := VStr ("An error occurred while updating the property: "
                                      +:+ exn_str e)]> ∅),
       add_log (get_traceback e, "Property Update Error") s') in
    match tabProperty s !! name with
    | None =>
      handler (mkExn DoesNotExistError ("Property" +:+ " " +:+ name +:+ " not found")) s
    | Some f0 =>
      match for_each image_fields (update_image_step data)
              (set_updateable_fields data (mkDoc "Property" name f0)) s with
      | (Ok d1, s1) =>
        match validate (doctype d1) (fields d1) with
        | Some e => handler e s1
        | None =>
          (Ok (<["message" := VStr ("Property '" +:+ py_str (dict_get (fields d1) "title")
                                      +:+ "' updated successfully.")]>
               (<["property" := VStr (Properties.name d1)]> ∅)),
           set_tabProperty (<[Properties.name d1 := fields d1]> (tabProperty s1)) s1)
        end
      | (Raise e, s1) => handler e s1
      end
    end.
Proof.
  cbv zeta. unfold update_property, try_except, bind, get_doc.
  destruct (tabProperty s !! name) as [f0|]; [|done].
  destruct (for_each _ _ _ s) as [[d1|e] s1]; cbv beta iota.
  - unfold doc_save. destruct (validate _ _) as [e|]; cbv beta iota; [|done].
    by destruct (decide _).
  - by destruct (decide _).
Qed.

Lemma create_property_run (data : fieldmap) (s : store F) :
  create_property data s
  = let handler e s' :=
      (Ok (<["error" := VStr ("An error occurred while creating the property: "
                                +:+ exn_str e)]> ∅),
       add_log (get_traceback e, "Property Creation Error") s') in
    let n := autoname (tabProperty s) (new_property_fields data) in
    match validate "Property" (new_property_fields data) with
    | Some e => handler e s
    | None =>
      match tabProperty s !! n with
      | Some _ => handler (mkExn DuplicateEntryError n) s
      | None =>
        match for_each image_fields (create_image_step data)
                (mkDoc "Property" n (new_property_fields data))
                (set_tabProperty (<[n := new_property_fields data]> (tabProperty s)) s) with
        | (Ok d1, s1) =>
          match validate (doctype d1) (fields d1) with
          | Some e => handler e s1
          | None =>
            (Ok (<["message" := VStr ("Property '"
                                        +:+ py_str (dict_get (fields d1) "title")
                                        +:+ "' created successfully.")]>
                 (<["property" := VStr (name d1)]> ∅)),
             set_tabProperty (<[name d1 := fields d1]> (tabProperty s1)) s1)
          end
        | (Raise e, s1) => handler e s1
        end
      end
    end.
Proof.
  cbv zeta. unfold create_property, try_except, bind, doc_insert.
  fold (new_property_fields data).
  destruct (validate "Property" _) as [e|]; cbv beta iota; [done|].
  destruct (tabProperty s !! _); cbv beta iota; [done|].
  destruct (for_each _ _ _ _) as [[d1|e] s1]; cbv beta iota; [|done].
  unfold doc_save. by destruct (validate _ _) as [e|].
Qed.

(** **** Statements about [handle_image_upload] and [update_property] *)

(** X5: [handle_image_upload] leaves the file storage alone unless the
    value is a structured payload with a filename and content; what it
    returns is [None] or a string, never the payload; and on a truthy
    value that is neither a string nor a structured payload it raises
    an AttributeError. *)
Theorem handle_image_upload_stores_only_payloads (doc : document)
    (field_name : string) (file_data : pyval) (s : store F) :
  ((∀ d, file_data = VDict d →
         truthy (dict_get d "filename") && truthy (dict_get d "content") = false) →
   files (handle_image_upload doc field_name file_data s).2 = files s)
  ∧ (∀ r, (handle_image_upload doc field_name file_data s).1 = Ok r →
          r = VNone ∨ ∃ u, r = VStr u)
  ∧ (not_uploadable file_data →
     ∃ msg, (handle_image_upload doc field_name file_data s).1
            = Raise (mkExn AttributeError msg)).
Proof.
  split; [|split].
  - intros Hd. unfold handle_image_upload, bind, modify. simpl.
    destruct (truthy file_data); simpl; [|done].
    destruct file_data as [ |b|z|str|l|d]; simpl; try done.
    + by destruct (_ || _).
    + by rewrite (Hd d eq_refl).
  - intros r. apply handle_image_upload_result.
  - intros Hv. eexists. by apply handle_image_upload_rejects.
Qed.

Lemma for_each_update_log (data : fieldmap) (d : document) (s : store F) :
  tabProperty (for_each image_fields (update_image_step data) d s).2 = tabProperty s
  ∧ error_log (for_each image_fields (update_image_step data) d s).2 = error_log s.
Proof.
  destruct (for_each_frame _ _ (update_image_step_frame data) image_fields d s)
    as (Ht & He & _). done.
Qed.

(** X6: [update_property] never raises.  It returns a success payload,
    and then the Error Log is as before; or it returns an error payload,
    and then the Property table is as before and the Error Log has one
    more entry, under "Property Update Error". *)
Theorem update_property_all_or_nothing (name : string) (data : fieldmap)
    (s : store F) :
  (succeeded (update_property name data s)
   ∧ error_log (update_property name data s).2 = error_log s)
  ∨ (failed (update_property name data s)
     ∧ tabProperty (update_property name data s).2 = tabProperty s
     ∧ ∃ trace, error_log (update_property name data s).2
                = error_log s ++ [(trace, "Property Update Error")]).
Proof.
  rewrite update_property_run. cbv zeta.
  assert (Herr : ∀ e (s1 : store F),
    tabProperty s1 = tabProperty s → error_log s1 = error_log s →
    let r := (Ok (if decide (exn_cls e = DoesNotExistError)
                  then <["error" := VStr ("Property with name '" +:+ name
                                            +:+ "' does not exist.")]> (∅ : fieldmap)
                  else <["error" := VStr ("An error occurred while updating the property: "
                                            +:+ exn_str e)]> ∅),
              add_log (get_traceback e, "Property Update Error") s1) in
    failed r ∧ tabProperty r.2 = tabProperty s
    ∧ ∃ trace, error_log r.2 = error_log s ++ [(trace, "Property Update Error")]).
  { intros e s1 Ht He. cbv zeta. simpl. rewrite Ht, He. repeat split; [|by eexists].
    eexists. split; [done|].
    destruct (decide _); by rewrite lookup_insert_eq, lookup_insert_ne, lookup_empty. }
  destruct (tabProperty s !! name) as [f0|]; [|right; by apply Herr].
  destruct (for_each_update_log data
              (set_updateable_fields data (mkDoc "Property" name f0)) s) as [Ht He].
  destruct (for_each _ _ _ s) as [[d1|e] s1]; cbn [fst snd] in *;
    [|right; by apply Herr].
  destruct (validate _ _) as [e|]; [right; by apply Herr|].
  left. split; [|done]. eexists. split; [done|]. by rewrite lookup_insert_eq.
Qed.

Lemma scalar_loop_sets (data : fieldmap) (l : list string) (d : document) (k : string) :
  NoDup l → k ∈ l →
  fields (foldl (λ d field, if dict_has data field
                            then doc_set d field (dict_get data field)
                            else d) d l) !! k
  = match data !! k with Some v => Some v | None => fields d !! k end.
Proof.
  intros Hnd. revert d. induction l as [|g l IH]; intros d Hk;
    [by apply elem_of_nil in Hk|].
  apply NoDup_cons in Hnd as [Hg Hnd]. cbn [foldl].
  apply elem_of_cons in Hk as [->|Hk].
  - assert (Hother : ∀ d0 : document,
      fields (foldl (λ d field, if dict_has data field
                                then doc_set d field (dict_get data field)
                                else d) d0 l) !! g = fields d0 !! g).
    { clear IH Hnd. induction l as [|h l IHl]; intros d0; [done|].
      apply not_elem_of_cons in Hg as [Hne Hg]. cbn [foldl]. rewrite IHl by done.
      destruct (dict_has data h); [|done]. simpl. by rewrite lookup_insert_ne. }
    rewrite Hother. unfold dict_has, dict_get.
    destruct (data !! g) as [v|]; simpl; [by rewrite lookup_insert_eq|done].
  - rewrite IH by done. destruct (data !! k) as [v|]; [done|].
    destruct (dict_has data g); [|done]. simpl. rewrite lookup_insert_ne; [done|].
    by intros ->.
Qed.

Lemma updateable_fields_nodup : NoDup updateable_fields.
Proof. apply (bool_decide_unpack _). vm_compute. exact I. Qed.

Lemma image_fields_nodup : NoDup image_fields.
Proof. apply (bool_decide_unpack _). vm_compute. exact I. Qed.

Lemma update_handler_not_success (name : string) (e : exn) (s1 : store F) :
  ¬ succeeded
      (Ok (if decide (exn_cls e = DoesNotExistError)
           then <["error" := VStr ("Property with name '" +:+ name
                                     +:+ "' does not exist.")]> (∅ : fieldmap)
           else <["error" := VStr ("An error occurred while updating the property: "
                                     +:+ exn_str e)]> ∅),
       add_log (get_traceback e, "Property Update Error") s1).
Proof. destruct (decide _); apply error_payload_not_success. Qed.

(** The document a successful [update_property] writes: the document
    the image loop returned, started from the stored one. *)
Lemma update_property_success (name : string) (data : fieldmap) (s : store F) :
  succeeded (update_property name data s) →
  ∃ f0 d1,
    tabProperty s !! name = Some f0
    ∧ (for_each image_fields (update_image_step data)
         (set_updateable_fields data (mkDoc "Property" name f0)) s).1 = Ok d1
    ∧ tabProperty (update_property name data s).2
      = <[name := fields d1]> (tabProperty s).
Proof.
  rewrite update_property_run. cbv zeta.
  destruct (tabProperty s !! name) as [f0|];
    [|intros Hs; by apply update_handler_not_success in Hs].
  destruct (set_updateable_fields_frame data (mkDoc "Property" name f0)) as (Hn0 & _).
  destruct (for_each_update_log data
              (set_updateable_fields data (mkDoc "Property" name f0)) s) as [Ht _].
  pose proof (for_each_doc _ (update_image_step_doc data) image_fields
                (set_updateable_fields data (mkDoc "Property" name f0))) as Hd.
  destruct (for_each _ _ _ s) as [[d1|e] s1] eqn:E; cbn [fst snd] in *;
    [|intros Hs; by apply update_handler_not_success in Hs].
  destruct (validate _ _) as [e|];
    [intros Hs; by apply update_handler_not_success in Hs|].
  intros _. exists f0, d1. split; [done|]. split; [by rewrite E|].
  destruct (Hd d1 s) as (Hn1 & _); [by rewrite E|].
  cbn. by rewrite Hn1, Hn0, Ht.
Qed.

Lemma scalar_field_not_image (k : string) :
  k ∈ updateable_fields → k ∉ image_fields.
Proof. intros Hk Hi. by apply (image_field_not_scalar k). Qed.

(** X7: when [update_property] reports success, each allowlisted field
    that is a key of [data] is stored with the value [data] gives it,
    also an empty one; an allowlisted field that is no key of [data] and
    every field outside the two lists (a key of [data] or not) are stored
    as before; and no other document of the table is touched. *)
Theorem update_property_sets_allowlisted (name : string) (data : fieldmap)
    (s : store F) :
  succeeded (update_property name data s) →
  (∀ k, k ∈ updateable_fields →
        stored_field name k (update_property name data s).2
        = match data !! k with
          | Some v => Some v
          | None => stored_field name k s
          end)
  ∧ (∀ k, k ∉ updateable_fields → k ∉ image_fields →
          stored_field name k (update_property name data s).2 = stored_field name k s)
  ∧ (∀ n, n ≠ name →
          tabProperty (update_property name data s).2 !! n = tabProperty s !! n).
Proof.
  intros Hs. destruct (update_property_success name data s Hs)
    as (f0 & d1 & Hn & Hloop & Htab).
  destruct (for_each_doc _ (update_image_step_doc data) _ _ _ _ Hloop) as (_ & _ & Hk).
  destruct (set_updateable_fields_frame data (mkDoc "Property" name f0))
    as (_ & _ & Hother).
  unfold stored_field. rewrite Htab, lookup_insert_eq, Hn. simpl.
  split; [|split].
  - intros k Hin. destruct (Hk k) as [-> | (Himg & _)];
      [|by apply scalar_field_not_image in Hin].
    unfold set_updateable_fields.
    by rewrite (scalar_loop_sets data _ _ k updateable_fields_nodup Hin).
  - intros k Hns Hni. destruct (Hk k) as [-> | (Himg & _)]; [|done].
    by rewrite Hother.
  - intros n Hne. by rewrite lookup_insert_ne.
Qed.

Lemma handle_image_upload_url (doc : document) (field_name url : string)
    (s : store F) :
  startswith url "/files/" = true ∨ startswith url "/private/files/" = true →
  handle_image_upload doc field_name (VStr url) s
  = (Ok (VStr url), add_call (field_name, VStr url) s).
Proof.
  intros Hp. unfold handle_image_upload, bind, modify.
  assert (Ht : truthy (VStr url) = true).
  { destruct url; [by destruct Hp|done]. }
  rewrite Ht. simpl. by destruct Hp as [-> | ->]; rewrite ?orb_true_r.
Qed.

(** X8: when [update_property] reports success and an image slot of
    [data] holds a string with a storage prefix, that string is the
    stored value of the image field afterwards. *)
Theorem update_property_binds_url (name : string) (data : fieldmap)
    (s : store F) (g url : string) :
  succeeded (update_property name data s) →
  g ∈ image_fields →
  data !! g = Some (VStr url) →
  startswith url "/files/" = true ∨ startswith url "/private/files/" = true →
  stored_field name g (update_property name data s).2 = Some (VStr url).
Proof.
  intros Hs Hg Hdata Hp. destruct (update_property_success name data s Hs)
    as (f0 & d1 & Hn & Hloop & Htab).
  unfold stored_field. rewrite Htab, lookup_insert_eq. simpl.
  eapply (for_each_sets _ (update_image_step_string data));
    [apply image_fields_nodup|exact Hg| |exact Hloop].
  intros d s' d'. unfold update_image_step, dict_has, dict_item.
  rewrite Hdata, bool_decide_eq_true_2 by eauto. unfold bind. simpl.
  rewrite handle_image_upload_url by done.
  assert (Ht : truthy (VStr url) = true).
  { destruct url; [by destruct Hp|done]. }
  rewrite Ht. simpl. intros [= <-]. simpl. by rewrite lookup_insert_eq.
Qed.


Lemma for_each_create_table (data : fieldmap) (d : document) (s : store F) :
  tabProperty (for_each image_fields (create_image_step data) d s).2 = tabProperty s
  ∧ error_log (for_each image_fields (create_image_step data) d s).2 = error_log s.
Proof.
  destruct (for_each_frame _ _ (create_image_step_frame data) image_fields d s)
    as (Ht & He & _). done.
Qed.



(** **** Statements about [create_property] and the listing *)

Lemma new_property_lookup (data : fieldmap) (k : string) :
  k ∈ updateable_fields → new_property_fields data !! k = Some (dict_get data k).
Proof.
  intros Hk. unfold new_property_fields.
  repeat (apply elem_of_cons in Hk as [->|Hk];
          [by rewrite ?lookup_insert_ne by done; rewrite lookup_insert_eq|]).
  by apply elem_of_nil in Hk.
Qed.

Lemma property_row_lookup (n : string) (f : fieldmap) (k : string) :
  k ∈ property_columns → property_row n f !! k = Some (dict_get f k).
Proof.
  intros Hk. unfold property_row. cbn [property_columns fmap list_fmap list_to_map foldr fst snd].
  repeat (apply elem_of_cons in Hk as [->|Hk];
          [by rewrite ?lookup_insert_ne by done; rewrite lookup_insert_eq|]).
  by apply elem_of_nil in Hk.
Qed.

Lemma allowlisted_is_column (k : string) : k ∈ updateable_fields → k ∈ property_columns.
Proof.
  revert k. apply Forall_forall. apply (bool_decide_unpack _). vm_compute. exact I.
Qed.

Lemma create_handler_not_success (e : exn) (s1 : store F) :
  ¬ succeeded
      (Ok (<["error" := VStr ("An error occurred while creating the property: "
                                +:+ exn_str e)]> (∅ : fieldmap)),
       add_log (get_traceback e, "Property Creation Error") s1).
Proof. apply error_payload_not_success. Qed.

(** X10: when [create_property] reports success, the name the new
    document got was free, the payload carries that name, the document
    is stored under it with each allowlisted field as [data.get] gives
    it ([None] for a key that [data] lacks), [get_properties] lists a
    row of that name with these fields, and no other document of the
    table is touched. *)
Theorem create_property_round_trip (data : fieldmap) (s : store F) :
  succeeded (create_property data s) →
  let n := autoname (tabProperty s) (new_property_fields data) in
  tabProperty s !! n = None
  ∧ (∃ text, (create_property data s).1
             = Ok (<["message" := VStr text]> (<["property" := VStr n]> ∅)))
  ∧ (∀ k, k ∈ updateable_fields →
          stored_field n k (create_property data s).2 = Some (dict_get data k))
  ∧ (∃ row, row ∈ get_properties (create_property data s).2
            ∧ row !! "name" = Some (VStr n)
            ∧ ∀ k, k ∈ updateable_fields → row !! k = Some (dict_get data k))
  ∧ (∀ m, m ≠ n →
          tabProperty (create_property data s).2 !! m = tabProperty s !! m).
Proof.
  rewrite create_property_run. cbv zeta.
  destruct (validate "Property" _) as [e|];
    [intros Hs; by apply create_handler_not_success in Hs|].
  set (n := autoname _ _).
  destruct (tabProperty s !! n) as [f|] eqn:Hfree;
    [intros Hs; by apply create_handler_not_success in Hs|].
  destruct (for_each_create_table data (mkDoc "Property" n (new_property_fields data))
              (set_tabProperty (<[n := new_property_fields data]> (tabProperty s)) s))
    as [Ht _].
  pose proof (for_each_doc _ (create_image_step_doc data) image_fields
                (mkDoc "Property" n (new_property_fields data))) as Hdoc.
  destruct (for_each _ _ _ _) as [[d1|e] s1] eqn:E; cbn [fst snd] in *;
    [|intros Hs; by apply create_handler_not_success in Hs].
  destruct (validate _ _) as [e|];
    [intros Hs; by apply create_handler_not_success in Hs|].
  intros _. destruct (Hdoc d1 _ ltac:(by rewrite E)) as (Hname & _ & Hk).
  simpl in Hname, Ht. rewrite Hname, Ht.
  assert (Hfield : ∀ k, k ∈ updateable_fields → fields d1 !! k = Some (dict_get data k)).
  { intros k Hin. destruct (Hk k) as [-> | (Himg & _)];
      [|by apply scalar_field_not_image in Hin].
    simpl. by apply new_property_lookup. }
  split; [done|]. split; [by eexists|]. split; [|split].
  - intros k Hin. unfold stored_field. simpl. rewrite lookup_insert_eq. simpl.
    by apply Hfield.
  - exists (property_row n (fields d1)). split; [|split].
    + unfold get_properties. apply list_elem_of_fmap. exists (n, fields d1).
      split; [done|]. apply elem_of_map_to_list. simpl. by rewrite lookup_insert_eq.
    + unfold property_row. by rewrite lookup_insert_eq.
    + intros k Hin. rewrite property_row_lookup by by apply allowlisted_is_column.
      unfold dict_get at 1. by rewrite (Hfield k Hin).
  - intros m Hne. simpl. by rewrite !lookup_insert_ne.
Qed.

(** X11: [create_property] does not undo its insert.  When the new
    document passes its checks and its name is free, and an image slot
    of [data] holds a truthy value that is neither a string nor a
    structured payload, the endpoint reports an error, and yet the
    document is in the table afterwards, as it was inserted. *)
Theorem create_property_keeps_failed_insert (data : fieldmap) (s : store F)
    (g : string) (v : pyval) :
  validate "Property" (new_property_fields data) = None →
  tabProperty s !! autoname (tabProperty s) (new_property_fields data) = None →
  g ∈ image_fields → data !! g = Some v → not_uploadable v →
  failed (create_property data s)
  ∧ tabProperty (create_property data s).2
    = <[autoname (tabProperty s) (new_property_fields data) := new_property_fields data]>
        (tabProperty s).
Proof.
  intros Hval Hfree Hg Hdata Hv. rewrite create_property_run. cbv zeta.
  rewrite Hval, Hfree.
  set (n := autoname _ _).
  destruct (for_each_create_table data (mkDoc "Property" n (new_property_fields data))
              (set_tabProperty (<[n := new_property_fields data]> (tabProperty s)) s))
    as [Ht _].
  destruct (for_each_raises (create_image_step data) image_fields
              (mkDoc "Property" n (new_property_fields data))
              (set_tabProperty (<[n := new_property_fields data]> (tabProperty s)) s)
              g Hg) as [e He].
  { intros d s'. unfold create_image_step, dict_has, dict_item, dict_get.
    rewrite Hdata. simpl. destruct Hv as (Htr & Hns & Hnd). rewrite Htr.
    simpl. unfold bind. simpl.
    pose proof (handle_image_upload_rejects d g v s' (conj Htr (conj Hns Hnd))) as Hr.
    destruct (handle_image_upload d g v s') as [[r|e] s1]; simpl in Hr; [done|].
    by eexists. }
  destruct (for_each _ _ _ _) as [[d1|e'] s1]; cbn [fst snd] in *; [done|].
  split; [|simpl; by rewrite Ht].
  eexists. split; [done|]. by rewrite lookup_insert_eq, lookup_insert_ne, lookup_empty.
Qed.

(** X12: the not-found payload of [update_property] tells the class of
    the exception, not where it came from.  When the Property exists,
    the [image] slot holds a structured payload with filename and
    content, and [save_file] raises a DoesNotExistError, the endpoint
    answers that the Property does not exist. *)
Theorem update_property_misreports_missing (name : string) (data d : fieldmap)
    (s : store F) (f0 : fieldmap) (e : exn) (fs : F) :
  tabProperty s !! name = Some f0 →
  data !! "image" = Some (VDict d) →
  truthy (dict_get d "filename") = true →
  truthy (dict_get d "content") = true →
  save_file (dict_get d "filename") (dict_get d "content") "Property" name
    "Home/Attachments" 0 (files s) = (Raise e, fs) →
  exn_cls e = DoesNotExistError →
  (update_property name data s).1
  = Ok (<["error" := VStr ("Property with name '" +:+ name +:+ "' does not exist.")]> ∅).
Proof.
  intros Hn Hdata Hf Hc Hsave Hcls. rewrite update_property_run. cbv zeta.
  rewrite Hn.
  destruct (set_updateable_fields_frame data (mkDoc "Property" name f0))
    as (Hname & Hdt & _).
  assert (Hloop : ∀ d0 : document, Properties.name d0 = name → doctype d0 = "Property" →
            ∃ s1, for_each image_fields (update_image_step data) d0 s = (Raise e, s1)).
  { intros d0 Hn0 Ht0. unfold image_fields. cbn [for_each]. unfold bind at 1.
    unfold update_image_step at 1, dict_has, dict_item.
    rewrite Hdata, bool_decide_eq_true_2 by eauto. unfold bind at 1. simpl.
    unfold bind at 1.
    assert (Hh : ∃ s1, handle_image_upload d0 "image" (VDict d) s = (Raise e, s1)).
    { unfold handle_image_upload, bind, modify.
      assert (Htr : truthy (VDict d) = true).
      { simpl. apply negb_true_iff, bool_decide_eq_false. intros ->.
        unfold dict_get in Hf. by rewrite lookup_empty in Hf. }
      rewrite Htr, Hf, Hc. simpl. unfold call_save_file. simpl.
      rewrite Hn0, Ht0, Hsave. by eexists. }
    destruct Hh as [s1 ->]. by eexists. }
  destruct (Hloop _ Hname Hdt) as [s1 ->].
  simpl. by rewrite decide_True.
Qed.

End more_facts.

(** *** The further statements at concrete inputs *)

Lemma handle_image_upload_stores_only_payloads_witness :
  files (handle_image_upload (mkDoc "Property" "P1" ∅) "image"
           (VStr "http://example.com/a.png") one_property).2 = []
  ∧ ∃ msg, (handle_image_upload (mkDoc "Property" "P1" ∅) "image" (VInt 7)
              one_property).1 = Raise (mkExn AttributeError msg).
Proof.
  split.
  - destruct (handle_image_upload_stores_only_payloads (mkDoc "Property" "P1" ∅) "image"
                (VStr "http://example.com/a.png") one_property) as (Hfiles & _).
    rewrite Hfiles; [reflexivity|]. intros d Hd. discriminate Hd.
  - destruct (handle_image_upload_stores_only_payloads (mkDoc "Property" "P1" ∅) "image"
                (VInt 7) one_property) as (_ & _ & Hraise).
    apply Hraise. split; [reflexivity|]. split; intros x Hx; discriminate Hx.
Defined.

Lemma update_property_sets_allowlisted_witness :
  stored_field "P1" "title"
    (update_property "P1" (<["title" := VStr ""]> (<["owner" := VStr "eve"]> ∅))
       one_property).2 = Some (VStr "")
  ∧ stored_field "P1" "owner"
      (update_property "P1" (<["title" := VStr ""]> (<["owner" := VStr "eve"]> ∅))
         one_property).2 = None.
Proof.
  destruct (update_property_sets_allowlisted "P1"
              (<["title" := VStr ""]> (<["owner" := VStr "eve"]> ∅)) one_property)
    as (Hset & Hkeep & _).
  - exists (<["message" := VStr "Property '' updated successfully."]>
            (<["property" := VStr "P1"]> ∅)).
    split; [vm_compute; reflexivity|].
    exists (VStr "Property '' updated successfully."). vm_compute. reflexivity.
  - split.
    + rewrite (Hset "title"); [vm_compute; reflexivity|]. left.
    + rewrite (Hkeep "owner"); [vm_compute; reflexivity| |].
      * apply (bool_decide_unpack _). vm_compute. exact I.
      * apply (bool_decide_unpack _). vm_compute. exact I.
Defined.

Lemma update_property_binds_url_witness :
  stored_field "P1" "image_2"
    (update_property "P1" (<["image_2" := VStr "/private/files/plan.pdf"]> ∅)
       one_property).2 = Some (VStr "/private/files/plan.pdf").
Proof.
  apply (update_property_binds_url "P1" (<["image_2" := VStr "/private/files/plan.pdf"]> ∅)
           one_property "image_2" "/private/files/plan.pdf").
  - exists (<["message" := VStr "Property 'Flat' updated successfully."]>
            (<["property" := VStr "P1"]> ∅)).
    split; [vm_compute; reflexivity|].
    exists (VStr "Property 'Flat' updated successfully."). vm_compute. reflexivity.
  - apply (bool_decide_unpack _). vm_compute. exact I.
  - vm_compute. reflexivity.
  - right. reflexivity.
Defined.



Lemma create_property_round_trip_witness :
  stored_field "Loft" "title"
    (create_property (<["title" := VStr "Loft"]> (<["bedrooms" := VInt 2]> ∅))
       one_property).2 = Some (VStr "Loft")
  ∧ stored_field "Loft" "location"
      (create_property (<["title" := VStr "Loft"]> (<["bedrooms" := VInt 2]> ∅))
         one_property).2 = Some VNone.
Proof.
  destruct (create_property_round_trip
              (<["title" := VStr "Loft"]> (<["bedrooms" := VInt 2]> ∅)) one_property)
    as (_ & _ & Hfields & _).
  - exists (<["message" := VStr "Property 'Loft' created successfully."]>
            (<["property" := VStr "Loft"]> ∅)).
    split; [vm_compute; reflexivity|].
    exists (VStr "Property 'Loft' created successfully."). vm_compute. reflexivity.
  - split.
    + apply (Hfields "title"). left.
    + apply (Hfields "location"). right. left.
Defined.

Lemma create_property_keeps_failed_insert_witness :
  failed (create_property (<["title" := VStr "Loft"]> (<["image_2" := VInt 7]> ∅))
            empty_store)
  ∧ tabProperty (create_property (<["title" := VStr "Loft"]> (<["image_2" := VInt 7]> ∅))
                   empty_store).2
    = <["Loft" := new_property_fields (<["title" := VStr "Loft"]> (<["image_2" := VInt 7]> ∅))]>
        ∅.
Proof.
  destruct (create_property_keeps_failed_insert
              (<["title" := VStr "Loft"]> (<["image_2" := VInt 7]> ∅)) empty_store
              "image_2" (VInt 7)) as [Hfailed Htable].
  - reflexivity.
  - vm_compute. reflexivity.
  - apply (bool_decide_unpack _). vm_compute. exact I.
  - vm_compute. reflexivity.
  - split; [reflexivity|]. split; intros x Hx; discriminate Hx.
  - split; [exact Hfailed|]. rewrite Htable. reflexivity.
Defined.

Lemma update_property_misreports_missing_witness :
  (@update_property unit SampleNoFolder.framework "P1"
     (<["image" := VDict (<["filename" := VStr "a.png"]>
                          (<["content" := VStr "iVBOR"]> ∅))]> ∅)
     SampleNoFolder.one_property).1
  = Ok (<["error" := VStr "Property with name 'P1' does not exist."]> ∅).
Proof.
  apply (@update_property_misreports_missing unit SampleNoFolder.framework "P1"
           (<["image" := VDict (<["filename" := VStr "a.png"]>
                                (<["content" := VStr "iVBOR"]> ∅))]> ∅)
           (<["filename" := VStr "a.png"]> (<["content" := VStr "iVBOR"]> ∅))
           SampleNoFolder.one_property (<["title" := VStr "Flat"]> ∅)
           (mkExn DoesNotExistError "Folder Home/Attachments not found") tt).
  - vm_compute. reflexivity.
  - vm_compute. reflexivity.
  - reflexivity.
  - reflexivity.
  - reflexivity.
  - reflexivity.
Defined.
End PropertiesFacts.

(** ** Tenant dashboard and active-property counter *)

Module DashboardFacts.
Import Dashboard.

Section facts.
Context `{!Env}.

(** *** Statements and loops leave the tables and the Error Log *)

Lemma run_query_frame {A} (q : database → A) (s : store) :
  db (run_query q s).2 = db s ∧ error_log (run_query q s).2 = error_log s.
Proof. unfold run_query. by destruct (faults s) as [|[e|] fs]. Qed.

Lemma run_query_value {A} (q : database → A) (s : store) (a : A) :
  (run_query q s).1 = Ok a → a = q (db s).
Proof.
  unfold run_query. destruct (faults s) as [|[e|] fs]; simpl; congruence.
Qed.

Lemma run_query_ok {A} (q : database → A) (s : store) :
  next_statement_ok s → (run_query q s).1 = Ok (q (db s)).
Proof.
  unfold run_query, next_statement_ok. by destruct (faults s) as [|[e|] fs].
Qed.

Section loops.
Context {A B : Type} (f : A → M store B).
Hypothesis f_frame : ∀ x s,
  db (f x s).2 = db s ∧ error_log (f x s).2 = error_log s.

Lemma map_m_frame (l : list A) (s : store) :
  db (map_m f l s).2 = db s ∧ error_log (map_m f l s).2 = error_log s.
Proof.
  revert s. induction l as [|x l IH]; intros s; [done|].
  simpl. unfold bind. destruct (f_frame x s) as [Hd He].
  destruct (f x s) as [[y|e] s1]; simpl in *; [|done].
  destruct (IH s1) as [Hd' He'].
  destruct (map_m f l s1) as [[ys|e] s2]; simpl in *; by rewrite Hd', He'.
Qed.

(** Each element of the result comes from the element at its
    position, processed on a store with the same tables. *)
Lemma map_m_ok (l : list A) (l' : list B) (s : store) :
  (map_m f l s).1 = Ok l' →
  Forall2 (λ x y, ∃ s1, db s1 = db s ∧ (f x s1).1 = Ok y) l l'.
Proof.
  revert l' s. induction l as [|x l IH]; intros l' s; simpl.
  - intros [= <-]. constructor.
  - unfold bind. destruct (f_frame x s) as [Hd _].
    destruct (f x s) as [[y|e] s1] eqn:E; simpl in *; [|done].
    pose proof (λ l', IH l' s1) as IH1.
    destruct (map_m f l s1) as [[ys|e] s2]; simpl in *; [|done].
    intros [= <-]. constructor.
    + exists s. by rewrite E.
    + eapply Forall2_impl; [by apply IH1|].
      intros a b (s3 & Hs3 & Hb). exists s3. by rewrite Hs3, Hd.
Qed.
End loops.

Lemma attach_roles_frame (user : gmap string pyval) (s : store) :
  db (attach_roles user s).2 = db s
  ∧ error_log (attach_roles user s).2 = error_log s.
Proof.
  unfold attach_roles, bind.
  destruct (run_query_frame (select_roles (dict_get user "name")) s) as [Hd He].
  by destruct (run_query _ s) as [[a|e] s1].
Qed.

Lemma attach_rental_frame (user : gmap string pyval) (s : store) :
  db (attach_rental user s).2 = db s
  ∧ error_log (attach_rental user s).2 = error_log s.
Proof.
  unfold attach_rental, bind. destruct (py_in _ _); [|done].
  destruct (run_query_frame (select_active_rental (dict_get user "name")) s)
    as [Hd He].
  destruct (run_query _ s) as [[a|e] s1]; [|done]. by destruct a.
Qed.

Lemma get_users_with_roles_body_frame (s : store) :
  db (get_users_with_roles_body s).2 = db s
  ∧ error_log (get_users_with_roles_body s).2 = error_log s.
Proof.
  unfold get_users_with_roles_body, bind.
  destruct (run_query_frame select_users s) as [Hd0 He0].
  destruct (run_query select_users s) as [[us0|e] s0]; simpl in *; [|done].
  destruct (map_m_frame _ attach_roles_frame us0 s0) as [Hd1 He1].
  destruct (map_m attach_roles us0 s0) as [[us1|e] s1]; simpl in *;
    [|by rewrite Hd1, He1].
  destruct (map_m_frame _ attach_rental_frame us1 s1) as [Hd2 He2].
  destruct (map_m attach_rental us1 s1) as [[us2|e] s2]; simpl in *;
    by rewrite Hd2, He2, Hd1, He1.
Qed.

(** C9: when the body of [get_users_with_roles] raises, whatever it
    had built by then, the handler returns the empty list; the
    tables are as before, and the Error Log has one more entry, which
    holds the message of the exception. *)
Theorem get_users_with_roles_swallows (s s1 : store) (e : exn) :
  get_users_with_roles_body s = (Raise e, s1) →
  get_users_with_roles s
  = (Ok [], mkStore (db s) (faults s1)
              (error_log s ++ [["Error in get_users_with_roles: " +:+ exn_str e]])).
Proof.
  intros Hbody. destruct (get_users_with_roles_body_frame s) as [Hd He].
  unfold get_users_with_roles, try_except. rewrite Hbody in *. simpl in *.
  unfold bind, log_error, modify, ret. simpl. by rewrite Hd, He.
Qed.

Lemma size_list_to_set_remove_dups (l : list string) :
  length (remove_dups l) = size (list_to_set (C := gset string) l).
Proof.
  rewrite <- (size_list_to_set (C := gset string) (remove_dups l))
    by apply NoDup_remove_dups.
  f_equal. apply set_eq. intros x.
  by rewrite !elem_of_list_to_set, elem_of_remove_dups.
Qed.

(** C6: when its statement does not fail, the counter returns the
    number of distinct property identifiers among the tenant's
    rentals of status Active; two such rentals on one property count
    once. *)
Theorem count_is_distinct_properties (tenant : string) (s : store) :
  next_statement_ok s →
  (get_active_properties_count tenant s).1
  = Ok (<["message" := VStr "Active properties count fetched successfully."]>
        (<["tenant" := VStr tenant]>
        (<["active_properties_count" :=
             VInt (Z.of_nat (size (active_properties tenant (db s))))]> ∅)))
  ∧ (∀ p, p ∈ active_properties tenant (db s)
          ↔ ∃ r, r ∈ tabRental (db s) ∧ Rental.tenant r = tenant
                 ∧ Rental.status r = "Active" ∧ Rental.property r = p)
  ∧ (∀ r1 r2, active_rentals tenant (db s) = [r1; r2] →
              Rental.property r1 = Rental.property r2 →
              size (active_properties tenant (db s)) = 1%nat).
Proof.
  intros Hok. split; [|split].
  - unfold get_active_properties_count, try_except, bind.
    pose proof (run_query_ok (get_all_distinct_property tenant) s Hok) as Hq.
    destruct (run_query _ s) as [[rentals|e] s1]; simpl in Hq; [|done].
    injection Hq as ->. simpl. unfold get_all_distinct_property.
    by rewrite length_fmap, size_list_to_set_remove_dups.
  - intros p. unfold active_properties, active_rentals.
    rewrite elem_of_list_to_set, list_elem_of_fmap. split.
    + intros (r & -> & Hr). apply list_elem_of_filter in Hr as [[Ht Hs] Hr].
      by exists r.
    + intros (r & Hr & Ht & Hs & <-). exists r. split; [done|].
      by apply list_elem_of_filter.
  - intros r1 r2 Hrs Hp. unfold active_properties. rewrite Hrs.
    change (Rental.property <$> [r1; r2])
      with [Rental.property r1; Rental.property r2].
    rewrite Hp.
    assert (Hset : list_to_set [Rental.property r2; Rental.property r2]
                   = ({[Rental.property r2]} : gset string)).
    { apply set_eq. intros x.
      rewrite elem_of_list_to_set, !elem_of_cons, elem_of_nil, elem_of_singleton.
      tauto. }
    rewrite Hset. apply size_singleton.
Qed.

(** *** The statements of [get_users_with_roles] *)

Lemma filter_fmap_list {A B} (f : A → B) (P : B → Prop)
    `{!∀ y, Decision (P y)} (l : list A) :
  filter P (f <$> l) = f <$> filter (λ x, P (f x)) l.
Proof.
  induction l as [|x l IH]; [done|]. rewrite fmap_cons, !filter_cons.
  destruct (decide (P (f x))); by rewrite IH.
Qed.

Lemma sql_eq_str (column n : string) : sql_eq column (VStr n) = true ↔ column = n.
Proof. simpl. apply String.eqb_eq. Qed.

(** The roles the first loop stores for the user [n]. *)
Lemma roles_of_user (n : string) (d : database) :
  holds_role n "Tenants" d →
  py_in "Tenants"
    (VList ((λ role, dict_get role "role") <$> select_roles (VStr n) d)) = true.
Proof.
  intros (hr & Hin & Hp & Hr). simpl. apply existsb_exists.
  exists (VStr "Tenants"). split; [|done].
  apply list_elem_of_In, list_elem_of_fmap.
  exists (<["role" := VStr (HasRole.role hr)]> ∅). split.
  - unfold dict_get. by rewrite lookup_insert_eq, Hr.
  - unfold select_roles. apply list_elem_of_fmap. exists hr. split; [done|].
    apply list_elem_of_filter. split; [|done]. by apply sql_eq_str.
Qed.

(** With an earlier and a later Active rental, the rental statement
    returns the row of the later one. *)
Lemma select_active_rental_later (n : string) (d : database) (r1 r2 : Rental.row) :
  active_rentals n d ≡ₚ [r1; r2] →
  Rental.creation r1 < Rental.creation r2 →
  select_active_rental (VStr n) d
  = [<["name" := VStr (Rental.name r2)]> (<["property" := VStr (Rental.property r2)]>
     (<["start_date" := Rental.start_date r2]> (<["end_date" := Rental.end_date r2]>
     (<["monthly_rent" := Rental.monthly_rent r2]>
     (<["property_name" := cell_val (mjoin (tabProperty d !! Rental.property r2))]>
        ∅)))))].
Proof.
  intros Hperm Hlt. unfold select_active_rental.
  rewrite filter_fmap_list.
  rewrite (list_filter_iff _ (λ r, Rental.tenant r = n ∧ Rental.status r = "Active")
             (tabRental d)) by (intros r; by rewrite sql_eq_str).
  fold (active_rentals n d).
  symmetry in Hperm. apply Permutation_length_2_inv in Hperm as [-> | ->];
    cbn [fmap list_fmap order_by foldr insert_by fst].
  - destruct (Z.leb_spec (Rental.creation r2) (Rental.creation r1)); [lia|]. done.
  - destruct (Z.leb_spec (Rental.creation r1) (Rental.creation r2)); [|lia]. done.
Qed.

Lemma attach_roles_ok (user user' : gmap string pyval) (s : store) :
  (attach_roles user s).1 = Ok user' →
  user' = <["roles" := VList ((λ role, dict_get role "role")
                                <$> select_roles (dict_get user "name") (db s))]> user.
Proof.
  unfold attach_roles, bind.
  pose proof (run_query_value (select_roles (dict_get user "name")) s) as Hv.
  destruct (run_query _ s) as [[roles|e] s1]; [|done]. simpl in *.
  intros [= <-]. by rewrite (Hv roles eq_refl).
Qed.

(** The entry of a tenant for whom the rental statement returns a row. *)
Lemma attach_rental_found (user user' rental_info : gmap string pyval)
    (rest : list (gmap string pyval)) (s : store) :
  py_in "Tenants" (default (VList []) (user !! "roles")) = true →
  select_active_rental (dict_get user "name") (db s) = rental_info :: rest →
  (attach_rental user s).1 = Ok user' →
  user' = <["rental_status" := VStr "Active"]>
          (<["monthly_rent" := dict_get rental_info "monthly_rent"]>
          (<["lease_end" := dict_get rental_info "end_date"]>
          (<["lease_start" := dict_get rental_info "start_date"]>
          (<["property_name" := dict_get rental_info "property_name"]>
          (<["assigned_property" := dict_get rental_info "property"]> user))))).
Proof.
  intros Hin Hsel. unfold attach_rental, bind. rewrite Hin.
  pose proof (run_query_value (select_active_rental (dict_get user "name")) s) as Hv.
  destruct (run_query _ s) as [[rental|e] s1]; [|done]. simpl in *.
  rewrite (Hv rental eq_refl), Hsel. by intros [= <-].
Qed.

(** The second loop leaves the [name] and the [roles] of an entry. *)
Lemma attach_rental_keeps (user user' : gmap string pyval) (s : store) :
  (attach_rental user s).1 = Ok user' →
  user' !! "name" = user !! "name" ∧ user' !! "roles" = user !! "roles".
Proof.
  unfold attach_rental, bind. destruct (py_in _ _).
  - destruct (run_query _ s) as [[[|rental_info rest]|e] s1]; [| |done];
      simpl; intros [= <-]; by rewrite !lookup_insert_ne.
  - simpl. intros [= <-]. by rewrite !lookup_insert_ne.
Qed.

(** Every entry of the result went through both loops, on stores
    with the tables of the start. *)
Lemma get_users_with_roles_entry (s : store) (users : list (gmap string pyval))
    (user : gmap string pyval) :
  (get_users_with_roles s).1 = Ok users → user ∈ users →
  ∃ u0 u1 s1 s2,
    u0 ∈ select_users (db s)
    ∧ db s1 = db s ∧ (attach_roles u0 s1).1 = Ok u1
    ∧ db s2 = db s ∧ (attach_rental u1 s2).1 = Ok user.
Proof.
  unfold get_users_with_roles, try_except.
  destruct (get_users_with_roles_body s) as [[us|e] sb] eqn:Hbody; simpl.
  2: { intros [= <-] Hin. by apply elem_of_nil in Hin. }
  intros [= ->] Hin. revert Hbody.
  unfold get_users_with_roles_body, bind.
  pose proof (run_query_value select_users s) as Hv0.
  destruct (run_query_frame select_users s) as [Hd0 _].
  destruct (run_query select_users s) as [[us0|e] s0]; simpl in *; [|done].
  rewrite (Hv0 us0 eq_refl) in *. clear Hv0.
  pose proof (map_m_ok _ attach_roles_frame (select_users (db s)) ) as H1.
  destruct (map_m_frame _ attach_roles_frame (select_users (db s)) s0) as [Hd1 _].
  specialize (λ l', H1 l' s0).
  destruct (map_m attach_roles (select_users (db s)) s0) as [[us1|e] s1];
    simpl in *; [|done].
  specialize (H1 us1 eq_refl).
  pose proof (map_m_ok _ attach_rental_frame us1) as H2.
  specialize (λ l', H2 l' s1).
  destruct (map_m attach_rental us1 s1) as [[us2|e] s2]; simpl in *; [|done].
  intros [= <- <-]. specialize (H2 us2 eq_refl).
  apply list_elem_of_lookup in Hin as [i Hi].
  destruct (Forall2_lookup_r _ _ _ _ _ H2 Hi) as (u1 & Hi1 & s2' & Hs2' & Hu).
  destruct (Forall2_lookup_r _ _ _ _ _ H1 Hi1) as (u0 & Hi0 & s1' & Hs1' & Hu1).
  exists u0, u1, s1', s2'. repeat split; try done.
  - apply list_elem_of_lookup. eauto.
  - congruence.
  - congruence.
Qed.

(** C5: in the result of [get_users_with_roles], the entry of a user
    who holds the role Tenants and whose Active rentals are two, one
    created before the other, carries the property identifier, the
    property name, the lease start and end and the monthly rent of
    the later one, with rental_status Active. *)
Theorem later_active_rental_attached (s : store)
    (users : list (gmap string pyval)) (user : gmap string pyval)
    (n : string) (r1 r2 : Rental.row) :
  (get_users_with_roles s).1 = Ok users →
  user ∈ users →
  user !! "name" = Some (VStr n) →
  holds_role n "Tenants" (db s) →
  active_rentals n (db s) ≡ₚ [r1; r2] →
  Rental.creation r1 < Rental.creation r2 →
  user !! "assigned_property" = Some (VStr (Rental.property r2))
  ∧ user !! "property_name"
    = Some (cell_val (mjoin (tabProperty (db s) !! Rental.property r2)))
  ∧ user !! "lease_start" = Some (Rental.start_date r2)
  ∧ user !! "lease_end" = Some (Rental.end_date r2)
  ∧ user !! "monthly_rent" = Some (Rental.monthly_rent r2)
  ∧ user !! "rental_status" = Some (VStr "Active").
Proof.
  intros Hrun Hin Hname Hrole Hrent Hlt.
  destruct (get_users_with_roles_entry s users user Hrun Hin)
    as (u0 & u1 & s1 & s2 & _ & Hs1 & Hu1 & Hs2 & Hu).
  destruct (attach_rental_keeps _ _ _ Hu) as [Hn1 _]. rewrite Hname in Hn1.
  apply attach_roles_ok in Hu1. rewrite Hs1 in Hu1.
  assert (Hn0 : dict_get u0 "name" = VStr n).
  { rewrite Hu1, lookup_insert_ne in Hn1 by done.
    unfold dict_get. by rewrite <- Hn1. }
  rewrite Hn0 in Hu1.
  assert (Hn1' : dict_get u1 "name" = VStr n).
  { unfold dict_get. by rewrite <- Hn1. }
  pose proof (select_active_rental_later n (db s) r1 r2 Hrent Hlt) as Hsel.
  rewrite <- Hs2, <- Hn1' in Hsel.
  assert (Hpy : py_in "Tenants" (default (VList []) (u1 !! "roles")) = true).
  { rewrite Hu1, lookup_insert_eq. simpl default. by apply roles_of_user. }
  rewrite (attach_rental_found u1 user _ [] s2 Hpy Hsel Hu). unfold dict_get.
  repeat split;
    repeat (rewrite ?lookup_insert_eq; try rewrite lookup_insert_ne by done);
    simpl; by rewrite ?Hs2.
Qed.

(** *** An enabled tenant is listed *)

Lemma insert_by_perm {A} (le : A → A → bool) (x : A) (l : list A) :
  insert_by le x l ≡ₚ x :: l.
Proof.
  induction l as [|y l IH]; [done|]. simpl. destruct (le x y); [done|].
  rewrite IH. apply Permutation_swap.
Qed.

Lemma order_by_perm {A} (le : A → A → bool) (l : list A) : order_by le l ≡ₚ l.
Proof.
  induction l as [|x l IH]; [done|]. unfold order_by in *. simpl.
  by rewrite insert_by_perm, IH.
Qed.

Lemma select_users_lists (d : database) (u : User.row) :
  u ∈ tabUser d → User.enabled u = 1 → holds_role (User.name u) "Tenants" d →
  ∃ u0, u0 ∈ select_users d ∧ u0 !! "name" = Some (VStr (User.name u)).
Proof.
  intros Hu Hen (hr & Hhr & Hp & Hr).
  exists (<["name" := VStr (User.name u)]> (<["email" := cell_val (User.email u)]>
          (<["full_name" := cell_val (User.full_name u)]>
          (<["user_image" := cell_val (User.user_image u)]>
          (<["phone" := cell_val (User.phone u)]> ∅))))).
  split; [|by rewrite lookup_insert_eq].
  unfold select_users. apply list_elem_of_fmap.
  exists (User.name u, User.email u, User.full_name u, User.user_image u, User.phone u).
  split; [done|]. rewrite order_by_perm. apply elem_of_remove_dups.
  apply list_elem_of_fmap. exists (u, hr). split; [done|].
  apply list_elem_of_filter. split; [split; [by left|done]|].
  apply list_elem_of_bind. exists u. split; [|done].
  apply list_elem_of_bind. exists hr. split; [|done].
  rewrite bool_decide_eq_true_2 by done. by left.
Qed.

Lemma run_query_total {A} (q : database → A) (s : store) :
  faults s = [] → run_query q s = (Ok (q (db s)), s).
Proof. intros Hf. unfold run_query. by rewrite Hf. Qed.

Lemma map_m_total {A B} (f : A → M store B) (l : list A) (s : store) :
  (∀ x, ∃ y, f x s = (Ok y, s)) → ∃ l', map_m f l s = (Ok l', s).
Proof.
  intros Hf. induction l as [|x l [l' IH]]; [by exists []|].
  destruct (Hf x) as [y Hy]. exists (y :: l'). simpl. unfold bind.
  by rewrite Hy, IH.
Qed.

Lemma get_users_with_roles_total (s : store) :
  faults s = [] →
  ∃ us1 us2,
    map_m attach_roles (select_users (db s)) s = (Ok us1, s)
    ∧ map_m attach_rental us1 s = (Ok us2, s)
    ∧ get_users_with_roles s = (Ok us2, s).
Proof.
  intros Hf.
  destruct (map_m_total attach_roles (select_users (db s)) s) as [us1 H1].
  { intros x. eexists. unfold attach_roles, bind. by rewrite run_query_total. }
  destruct (map_m_total attach_rental us1 s) as [us2 H2].
  { intros x. unfold attach_rental, bind. destruct (py_in _ _); [|by eexists].
    rewrite run_query_total by done. destruct (select_active_rental _ _); by eexists. }
  exists us1, us2. repeat split; [done..|].
  unfold get_users_with_roles, try_except, get_users_with_roles_body, bind.
  by rewrite run_query_total, H1, H2.
Qed.

(** When no statement fails, the result has an entry for every
    enabled user who holds the role Tenants. *)
Lemma enabled_tenant_is_listed (s : store) (u : User.row) :
  faults s = [] →
  u ∈ tabUser (db s) → User.enabled u = 1 → holds_role (User.name u) "Tenants" (db s) →
  ∃ users user,
    (get_users_with_roles s).1 = Ok users
    ∧ user ∈ users
    ∧ user !! "name" = Some (VStr (User.name u)).
Proof.
  intros Hf Hu Hen Hrole.
  destruct (get_users_with_roles_total s Hf) as (us1 & us2 & E1 & E2 & Hrun).
  destruct (select_users_lists (db s) u Hu Hen Hrole) as (u0 & Hu0 & Hname).
  pose proof (map_m_ok _ attach_roles_frame (select_users (db s)) us1 s) as H1.
  rewrite E1 in H1. specialize (H1 eq_refl).
  pose proof (map_m_ok _ attach_rental_frame us1 us2 s) as H2.
  rewrite E2 in H2. specialize (H2 eq_refl).
  apply list_elem_of_lookup in Hu0 as [i Hi].
  destruct (Forall2_lookup_l _ _ _ _ _ H1 Hi) as (u1 & Hi1 & sa & _ & Hu1).
  destruct (Forall2_lookup_l _ _ _ _ _ H2 Hi1) as (u2 & Hi2 & sb & _ & Hu2).
  exists us2, u2. rewrite Hrun. repeat split.
  - apply list_elem_of_lookup. eauto.
  - destruct (attach_rental_keeps _ _ _ Hu2) as [-> _].
    apply attach_roles_ok in Hu1 as ->. by rewrite lookup_insert_ne.
Qed.

End facts.

(** *** The statements at concrete inputs *)

Import Sample.

Lemma later_active_rental_attached_witness :
  ∃ users user,
    (get_users_with_roles sample_store).1 = Ok users
    ∧ user ∈ users
    ∧ user !! "name" = Some (VStr "asha@example.com")
    ∧ user !! "assigned_property" = Some (VStr "P-2")
    ∧ user !! "property_name" = Some (VStr "Sea View")
    ∧ user !! "lease_start" = Some (VStr "2025-01-01")
    ∧ user !! "lease_end" = Some (VStr "2025-12-31")
    ∧ user !! "monthly_rent" = Some (VInt 650000)
    ∧ user !! "rental_status" = Some (VStr "Active").
Proof.
  destruct (enabled_tenant_is_listed sample_store
              (User.mk "asha@example.com" (Some "asha@example.com") (Some "Asha")
                 None (Some "0700") 1))
    as (users & user & Hrun & Hin & Hname).
  - reflexivity.
  - right. left.
  - reflexivity.
  - exists (HasRole.mk "asha@example.com" "Tenants"). split; [left|done].
  - exists users, user. split; [done|]. split; [done|]. split; [done|].
    apply (later_active_rental_attached sample_store users user "asha@example.com"
             (Rental.mk "R-1" "P-1" "asha@example.com" "Active"
                (VStr "2024-01-01") (VStr "2024-12-31") (VInt 500000) 100)
             (Rental.mk "R-2" "P-2" "asha@example.com" "Active"
                (VStr "2025-01-01") (VStr "2025-12-31") (VInt 650000) 200)
             Hrun Hin Hname).
    + exists (HasRole.mk "asha@example.com" "Tenants"). split; [left|done].
    + vm_compute. reflexivity.
    + reflexivity.
Defined.

Lemma get_users_with_roles_swallows_witness :
  get_users_with_roles failing_store
  = (Ok [], mkStore sample_db []
              [["Error in get_users_with_roles: server has gone away"]]).
Proof.
  apply (get_users_with_roles_swallows failing_store (mkStore sample_db [] [])
           (mkExn (OtherException "OperationalError") "server has gone away")).
  vm_compute. reflexivity.
Defined.

Lemma count_is_distinct_properties_witness :
  (get_active_properties_count "bakari@example.com" sample_store).1
  = Ok (<["message" := VStr "Active properties count fetched successfully."]>
        (<["tenant" := VStr "bakari@example.com"]>
        (<["active_properties_count" := VInt 1]> ∅))).
Proof.
  destruct (count_is_distinct_properties "bakari@example.com" sample_store)
    as (Hcount & _ & Hsame); [exact I|].
  rewrite Hcount.
  rewrite (Hsame (Rental.mk "R-4" "P-7" "bakari@example.com" "Active"
                    (VStr "2025-02-01") (VStr "2025-03-01") (VInt 300000) 150)
                 (Rental.mk "R-5" "P-7" "bakari@example.com" "Active"
                    (VStr "2025-03-01") (VStr "2025-04-01") (VInt 300000) 160));
    [reflexivity | vm_compute; reflexivity | reflexivity].
Defined.

(** *** Further properties of the dashboard *)

Section more_facts.
Context `{!Env}.

Lemma select_users_keys (d : database) (u0 : gmap string pyval) (k : string) :
  u0 ∈ select_users d →
  k ∉ ["name"; "email"; "full_name"; "user_image"; "phone"] →
  u0 !! k = None.
Proof.
  unfold select_users. intros Hin Hk.
  apply list_elem_of_fmap in Hin as ([[[[n e] f] i] p] & -> & _).
  apply not_elem_of_cons in Hk as [H1 Hk]. apply not_elem_of_cons in Hk as [H2 Hk].
  apply not_elem_of_cons in Hk as [H3 Hk]. apply not_elem_of_cons in Hk as [H4 Hk].
  apply not_elem_of_cons in Hk as [H5 _].
  by rewrite !lookup_insert_ne, lookup_empty.
Qed.

Lemma roles_of_user_inv (n : string) (d : database) :
  py_in "Tenants"
    (VList ((λ role, dict_get role "role") <$> select_roles (VStr n) d)) = true →
  holds_role n "Tenants" d.
Proof.
  cbn [py_in]. intros Hex. apply existsb_exists in Hex as (y & Hy & Hm).
  apply list_elem_of_In, list_elem_of_fmap in Hy as (row & -> & Hrow).
  unfold select_roles in Hrow. apply list_elem_of_fmap in Hrow as (hr & -> & Hhr).
  apply list_elem_of_filter in Hhr as [Hp Hhr]. apply sql_eq_str in Hp.
  unfold dict_get in Hm. rewrite lookup_insert_eq in Hm. cbn [from_option id] in Hm.
  apply String.eqb_eq in Hm. exists hr. by rewrite <- Hm.
Qed.

Lemma select_active_rental_none (n : string) (d : database) :
  active_rentals n d = [] → select_active_rental (VStr n) d = [].
Proof.
  intros Hnone. unfold select_active_rental. rewrite filter_fmap_list.
  rewrite (list_filter_iff _ (λ r, Rental.tenant r = n ∧ Rental.status r = "Active")
             (tabRental d)) by (intros r; by rewrite sql_eq_str).
  fold (active_rentals n d). by rewrite Hnone.
Qed.

(** What the second loop makes of an entry, by the three branches. *)
Lemma attach_rental_cases (user user' : gmap string pyval) (s : store) :
  (attach_rental user s).1 = Ok user' →
  if py_in "Tenants" (default (VList []) (user !! "roles")) then
    match select_active_rental (dict_get user "name") (db s) with
    | rental_info :: _ =>
      user' = <["rental_status" := VStr "Active"]>
              (<["monthly_rent" := dict_get rental_info "monthly_rent"]>
              (<["lease_end" := dict_get rental_info "end_date"]>
              (<["lease_start" := dict_get rental_info "start_date"]>
              (<["property_name" := dict_get rental_info "property_name"]>
              (<["assigned_property" := dict_get rental_info "property"]> user)))))
    | [] =>
      user' = <["property_name" := VNone]>
              (<["assigned_property" := VNone]>
              (<["rental_status" := VStr "Inactive"]> user))
    end
  else
    user' = <["property_name" := VNone]>
            (<["assigned_property" := VNone]>
            (<["rental_status" := VStr "N/A"]> user)).
Proof.
  unfold attach_rental, bind. destruct (py_in _ _); [|by intros [= <-]].
  pose proof (run_query_value (select_active_rental (dict_get user "name")) s) as Hv.
  destruct (run_query _ s) as [[rental|e] s1]; [|done]. simpl in *.
  rewrite <- (Hv rental eq_refl). destruct rental; by intros [= <-].
Qed.

(** An entry of the result, traced back: the row of the first statement
    it comes from, and the roles the first loop stored. *)
Lemma entry_origin (s : store) (users : list (gmap string pyval))
    (user : gmap string pyval) (n : string) :
  (get_users_with_roles s).1 = Ok users → user ∈ users →
  user !! "name" = Some (VStr n) →
  ∃ u0 s2,
    u0 ∈ select_users (db s) ∧ db s2 = db s
    ∧ (attach_rental
         (<["roles" := VList ((λ role, dict_get role "role")
                                <$> select_roles (VStr n) (db s))]> u0) s2).1 = Ok user
    ∧ u0 !! "name" = Some (VStr n).
Proof.
  intros Hrun Hin Hname.
  destruct (get_users_with_roles_entry s users user Hrun Hin)
    as (u0 & u1 & s1 & s2 & Hu0 & Hs1 & Hu1 & Hs2 & Hu).
  destruct (attach_rental_keeps _ _ _ Hu) as [Hn1 _]. rewrite Hname in Hn1.
  apply attach_roles_ok in Hu1. rewrite Hs1 in Hu1.
  assert (Hn0 : u0 !! "name" = Some (VStr n)).
  { by rewrite Hu1, lookup_insert_ne in Hn1. }
  unfold dict_get in Hu1. rewrite Hn0 in Hu1. simpl in Hu1. subst u1.
  exists u0, s2. done.
Qed.

Ltac lookup_entry :=
  repeat (rewrite ?lookup_insert_eq; try rewrite lookup_insert_ne by done).

(** X13: in the result of [get_users_with_roles], the entry of a user
    who holds the role Tenants and has no rental of status Active has
    rental_status Inactive and [None] for the property identifier and
    name, and it has no lease or rent key at all. *)
Theorem tenant_without_rental_is_inactive (s : store)
    (users : list (gmap string pyval)) (user : gmap string pyval) (n : string) :
  (get_users_with_roles s).1 = Ok users →
  user ∈ users →
  user !! "name" = Some (VStr n) →
  holds_role n "Tenants" (db s) →
  active_rentals n (db s) = [] →
  user !! "rental_status" = Some (VStr "Inactive")
  ∧ user !! "assigned_property" = Some VNone
  ∧ user !! "property_name" = Some VNone
  ∧ user !! "lease_start" = None
  ∧ user !! "lease_end" = None
  ∧ user !! "monthly_rent" = None.
Proof.
  intros Hrun Hin Hname Hrole Hnone.
  destruct (entry_origin s users user n Hrun Hin Hname)
    as (u0 & s2 & Hu0 & Hs2 & Hu & Hn0).
  apply attach_rental_cases in Hu. rewrite lookup_insert_eq in Hu. simpl default in Hu.
  rewrite (roles_of_user n (db s) Hrole) in Hu.
  unfold dict_get in Hu. rewrite lookup_insert_ne, Hn0 in Hu by done. simpl in Hu.
  rewrite Hs2, (select_active_rental_none n (db s) Hnone) in Hu. subst user.
  repeat split; lookup_entry; try done;
    apply (select_users_keys (db s)); try done;
    apply (bool_decide_unpack _); vm_compute; exact I.
Qed.

(** X14: the entry of a user who does not hold the role Tenants has
    rental_status N/A and [None] for the property identifier and name,
    and no lease or rent key, whatever rentals the table holds for that
    user. *)
Theorem non_tenant_is_not_applicable (s : store)
    (users : list (gmap string pyval)) (user : gmap string pyval) (n : string) :
  (get_users_with_roles s).1 = Ok users →
  user ∈ users →
  user !! "name" = Some (VStr n) →
  ¬ holds_role n "Tenants" (db s) →
  user !! "rental_status" = Some (VStr "N/A")
  ∧ user !! "assigned_property" = Some VNone
  ∧ user !! "property_name" = Some VNone
  ∧ user !! "lease_start" = None
  ∧ user !! "lease_end" = None
  ∧ user !! "monthly_rent" = None.
Proof.
  intros Hrun Hin Hname Hrole.
  destruct (entry_origin s users user n Hrun Hin Hname)
    as (u0 & s2 & Hu0 & Hs2 & Hu & Hn0).
  apply attach_rental_cases in Hu. rewrite lookup_insert_eq in Hu. simpl default in Hu.
  destruct (py_in _ _) eqn:Hpy; [by apply roles_of_user_inv in Hpy|].
  subst user.
  repeat split; lookup_entry; try done;
    apply (select_users_keys (db s)); try done;
    apply (bool_decide_unpack _); vm_compute; exact I.
Qed.

(** **** Which rental is attached *)

(** The head of a list ordered by descending key is an element of
    greatest key. *)
Lemma order_by_head_max {A} (key : A → Z) (l : list A) :
  match order_by (λ a b, key b <=? key a) l with
  | [] => l = []
  | x :: _ => ∀ y, y ∈ l → key y ≤ key x
  end.
Proof.
  induction l as [|a l IH]; [done|].
  change (order_by (λ a b, key b <=? key a) (a :: l))
    with (insert_by (λ a b, key b <=? key a) a (order_by (λ a b, key b <=? key a) l)).
  destruct (order_by _ l) as [|x rest].
  - subst l. simpl. intros y Hy. apply list_elem_of_singleton in Hy as ->. lia.
  - simpl. destruct (Z.leb_spec (key x) (key a)).
    + intros y Hy. apply elem_of_cons in Hy as [->|Hy]; [lia|].
      specialize (IH y Hy). lia.
    + intros y Hy. apply elem_of_cons in Hy as [->|Hy]; [lia|]. by apply IH.
Qed.

Lemma select_active_rental_head (n : string) (d : database) :
  active_rentals n d ≠ [] →
  ∃ r, r ∈ active_rentals n d
       ∧ (∀ r', r' ∈ active_rentals n d → Rental.creation r' ≤ Rental.creation r)
       ∧ select_active_rental (VStr n) d
         = [<["name" := VStr (Rental.name r)]> (<["property" := VStr (Rental.property r)]>
            (<["start_date" := Rental.start_date r]> (<["end_date" := Rental.end_date r]>
            (<["monthly_rent" := Rental.monthly_rent r]>
            (<["property_name" := cell_val (mjoin (tabProperty d !! Rental.property r))]>
               ∅)))))].
Proof.
  intros Hne. unfold select_active_rental. rewrite filter_fmap_list.
  rewrite (list_filter_iff _ (λ r, Rental.tenant r = n ∧ Rental.status r = "Active")
             (tabRental d)) by (intros r; by rewrite sql_eq_str).
  fold (active_rentals n d).
  set (joined := (λ r, (r, tabProperty d !! Rental.property r)) <$> active_rentals n d).
  pose proof (order_by_head_max (λ a : Rental.row * option cell, Rental.creation a.1)
                joined) as Hmax.
  pose proof (order_by_perm (λ a b : Rental.row * option cell,
                               Rental.creation b.1 <=? Rental.creation a.1) joined) as Hperm.
  destruct (order_by _ joined) as [|[r p] rest].
  - subst joined. apply fmap_nil_inv in Hmax. done.
  - assert (Hin : (r, p) ∈ joined) by (rewrite <- Hperm; by left).
    subst joined. apply list_elem_of_fmap in Hin as (r0 & [= <- ->] & Hr).
    exists r. split; [done|]. split; [|done].
    intros r' Hr'. apply (Hmax (r', tabProperty d !! Rental.property r')).
    apply list_elem_of_fmap. by exists r'.
Qed.

(** X15: whatever the number of Active rentals of a tenant, the entry
    carries the fields of one of them whose creation time no other of
    them exceeds, with rental_status Active. *)
Theorem latest_active_rental_is_attached (s : store)
    (users : list (gmap string pyval)) (user : gmap string pyval) (n : string) :
  (get_users_with_roles s).1 = Ok users →
  user ∈ users →
  user !! "name" = Some (VStr n) →
  holds_role n "Tenants" (db s) →
  active_rentals n (db s) ≠ [] →
  ∃ r, r ∈ active_rentals n (db s)
       ∧ (∀ r', r' ∈ active_rentals n (db s) → Rental.creation r' ≤ Rental.creation r)
       ∧ user !! "assigned_property" = Some (VStr (Rental.property r))
       ∧ user !! "property_name"
         = Some (cell_val (mjoin (tabProperty (db s) !! Rental.property r)))
       ∧ user !! "lease_start" = Some (Rental.start_date r)
       ∧ user !! "lease_end" = Some (Rental.end_date r)
       ∧ user !! "monthly_rent" = Some (Rental.monthly_rent r)
       ∧ user !! "rental_status" = Some (VStr "Active").
Proof.
  intros Hrun Hin Hname Hrole Hsome.
  destruct (entry_origin s users user n Hrun Hin Hname)
    as (u0 & s2 & Hu0 & Hs2 & Hu & Hn0).
  apply attach_rental_cases in Hu. rewrite lookup_insert_eq in Hu. simpl default in Hu.
  rewrite (roles_of_user n (db s) Hrole) in Hu.
  unfold dict_get at 1 in Hu. rewrite lookup_insert_ne, Hn0 in Hu by done.
  cbn [from_option id] in Hu.
  destruct (select_active_rental_head n (db s) Hsome) as (r & Hr & Hmax & Hsel).
  rewrite Hs2, Hsel in Hu. subst user. exists r. split; [done|]. split; [done|].
  unfold dict_get. repeat split; by lookup_entry.
Qed.

(** **** Who is listed *)

Lemma nodup_fmap_elem_inj {A B} (f : A → B) (l : list A) (x y : A) :
  NoDup (f <$> l) → x ∈ l → y ∈ l → f x = f y → x = y.
Proof.
  induction l as [|a l IH]; intros Hnd Hx Hy Hf; [by apply elem_of_nil in Hx|].
  rewrite fmap_cons in Hnd. apply NoDup_cons in Hnd as [Ha Hnd].
  apply elem_of_cons in Hx as [->|Hx]; apply elem_of_cons in Hy as [->|Hy].
  - done.
  - destruct Ha. rewrite Hf. apply list_elem_of_fmap. by exists y.
  - destruct Ha. rewrite <- Hf. apply list_elem_of_fmap. by exists x.
  - by apply IH.
Qed.

(** The rows of the first statement, before they become dicts. *)
Lemma select_users_rows (d : database) (u0 : gmap string pyval) :
  u0 ∈ select_users d →
  ∃ u, u ∈ tabUser d
       ∧ u0 !! "name" = Some (VStr (User.name u))
       ∧ User.enabled u = 1
       ∧ (holds_role (User.name u) "Tenants" d
          ∨ holds_role (User.name u) "System Manager" d).
Proof.
  unfold select_users. intros Hin.
  apply list_elem_of_fmap in Hin as ([[[[n e] f] i] p] & -> & Hin).
  rewrite order_by_perm, elem_of_remove_dups in Hin.
  apply list_elem_of_fmap in Hin as ([u hr] & [= -> -> -> -> ->] & Hin).
  apply list_elem_of_filter in Hin as [[Hr Hen] Hin].
  apply list_elem_of_bind in Hin as (u' & Hin & Hu).
  apply list_elem_of_bind in Hin as (hr' & Hin & Hhr).
  case_bool_decide as Hp; [|by apply elem_of_nil in Hin].
  apply list_elem_of_singleton in Hin as [= <- <-].
  exists u. split; [done|]. split; [by rewrite lookup_insert_eq|]. split; [done|].
  destruct Hr as [Hr|Hr]; [left|right]; by exists hr.
Qed.

Lemma select_users_names_nodup (d : database) :
  NoDup (User.name <$> tabUser d) →
  NoDup ((λ u0 : gmap string pyval, u0 !! "name") <$> select_users d).
Proof.
  intros Hpk. unfold select_users. rewrite <- list_fmap_compose.
  apply NoDup_fmap_2_strong.
  - intros [[[[n1 e1] f1] i1] p1] [[[[n2 e2] f2] i2] p2] H1 H2. simpl.
    rewrite !lookup_insert_eq. intros [= ->].
    rewrite order_by_perm, elem_of_remove_dups in H1, H2.
    apply list_elem_of_fmap in H1 as ([u1 hr1] & [= -> -> -> -> ->] & H1).
    apply list_elem_of_fmap in H2 as ([u2 hr2] & [= Hn -> -> -> ->] & H2).
    apply list_elem_of_filter in H1 as [_ H1]. apply list_elem_of_filter in H2 as [_ H2].
    apply list_elem_of_bind in H1 as (x1 & H1 & Hu1).
    apply list_elem_of_bind in H1 as (y1 & H1 & _).
    case_bool_decide; [|by apply elem_of_nil in H1].
    apply list_elem_of_singleton in H1 as [= <- <-].
    apply list_elem_of_bind in H2 as (x2 & H2 & Hu2).
    apply list_elem_of_bind in H2 as (y2 & H2 & _).
    case_bool_decide; [|by apply elem_of_nil in H2].
    apply list_elem_of_singleton in H2 as [= <- <-].
    by rewrite (nodup_fmap_elem_inj User.name (tabUser d) u1 u2 Hpk Hu1 Hu2 Hn).
  - rewrite order_by_perm. apply NoDup_remove_dups.
Qed.

(** The entries of a result keep the names of the rows of the first
    statement, position by position. *)
Lemma get_users_with_roles_names (s : store) (users : list (gmap string pyval)) :
  (get_users_with_roles s).1 = Ok users →
  users = []
  ∨ (λ u : gmap string pyval, u !! "name") <$> users
    = (λ u : gmap string pyval, u !! "name") <$> select_users (db s).
Proof.
  unfold get_users_with_roles, try_except.
  destruct (get_users_with_roles_body s) as [[us|e] sb] eqn:Hbody; simpl.
  2: { intros [= <-]. by left. }
  intros [= ->]. right. revert Hbody.
  unfold get_users_with_roles_body, bind.
  pose proof (run_query_value select_users s) as Hv0.
  destruct (run_query select_users s) as [[us0|e] s0]; simpl in *; [|done].
  rewrite (Hv0 us0 eq_refl) in *. clear Hv0.
  pose proof (map_m_ok _ attach_roles_frame (select_users (db s))) as H1.
  specialize (λ l', H1 l' s0).
  destruct (map_m attach_roles (select_users (db s)) s0) as [[us1|e] s1];
    simpl in *; [|done].
  specialize (H1 us1 eq_refl).
  pose proof (map_m_ok _ attach_rental_frame us1) as H2.
  specialize (λ l', H2 l' s1).
  destruct (map_m attach_rental us1 s1) as [[us2|e] s2]; simpl in *; [|done].
  intros [= <- <-]. specialize (H2 us2 eq_refl).
  transitivity ((λ u : gmap string pyval, u !! "name") <$> us1).
  - clear H1. induction H2 as [|u1 u2 l1 l2 (sa & _ & Hu) _ IH]; [done|].
    rewrite !fmap_cons, IH. f_equal.
    by destruct (attach_rental_keeps _ _ _ Hu) as [-> _].
  - clear H2. induction H1 as [|u0 u1 l0 l1 (sa & _ & Hu) _ IH]; [done|].
    rewrite !fmap_cons, IH. f_equal.
    apply attach_roles_ok in Hu as ->. by rewrite lookup_insert_ne.
Qed.

Lemma select_users_lists_any (d : database) (u : User.row) :
  u ∈ tabUser d → User.enabled u = 1 →
  holds_role (User.name u) "Tenants" d ∨ holds_role (User.name u) "System Manager" d →
  ∃ u0, u0 ∈ select_users d ∧ u0 !! "name" = Some (VStr (User.name u)).
Proof.
  intros Hu Hen Hroles.
  assert (Hhr : ∃ hr, hr ∈ tabHasRole d ∧ HasRole.parent hr = User.name u
                      ∧ (HasRole.role hr = "Tenants" ∨ HasRole.role hr = "System Manager")).
  { destruct Hroles as [(hr & ? & ? & ?)|(hr & ? & ? & ?)]; exists hr; auto. }
  destruct Hhr as (hr & Hhr & Hp & Hr).
  exists (<["name" := VStr (User.name u)]> (<["email" := cell_val (User.email u)]>
          (<["full_name" := cell_val (User.full_name u)]>
          (<["user_image" := cell_val (User.user_image u)]>
          (<["phone" := cell_val (User.phone u)]> ∅))))).
  split; [|by rewrite lookup_insert_eq].
  unfold select_users. apply list_elem_of_fmap.
  exists (User.name u, User.email u, User.full_name u, User.user_image u, User.phone u).
  split; [done|]. rewrite order_by_perm. apply elem_of_remove_dups.
  apply list_elem_of_fmap. exists (u, hr). split; [done|].
  apply list_elem_of_filter. split; [done|].
  apply list_elem_of_bind. exists u. split; [|done].
  apply list_elem_of_bind. exists hr. split; [|done].
  rewrite bool_decide_eq_true_2 by done. by left.
Qed.

(** When no statement fails, the result has an entry for every enabled
    user who holds one of the two roles. *)
Lemma enabled_user_is_listed (s : store) (u : User.row) :
  faults s = [] →
  u ∈ tabUser (db s) → User.enabled u = 1 →
  holds_role (User.name u) "Tenants" (db s)
  ∨ holds_role (User.name u) "System Manager" (db s) →
  ∃ users user,
    (get_users_with_roles s).1 = Ok users
    ∧ user ∈ users
    ∧ user !! "name" = Some (VStr (User.name u)).
Proof.
  intros Hf Hu Hen Hroles.
  destruct (get_users_with_roles_total s Hf) as (us1 & us2 & E1 & E2 & Hrun).
  destruct (select_users_lists_any (db s) u Hu Hen Hroles) as (u0 & Hu0 & Hname).
  pose proof (map_m_ok _ attach_roles_frame (select_users (db s)) us1 s) as H1.
  rewrite E1 in H1. specialize (H1 eq_refl).
  pose proof (map_m_ok _ attach_rental_frame us1 us2 s) as H2.
  rewrite E2 in H2. specialize (H2 eq_refl).
  apply list_elem_of_lookup in Hu0 as [i Hi].
  destruct (Forall2_lookup_l _ _ _ _ _ H1 Hi) as (u1 & Hi1 & sa & _ & Hu1).
  destruct (Forall2_lookup_l _ _ _ _ _ H2 Hi1) as (u2 & Hi2 & sb & _ & Hu2).
  exists us2, u2. rewrite Hrun. repeat split.
  - apply list_elem_of_lookup. eauto.
  - destruct (attach_rental_keeps _ _ _ Hu2) as [-> _].
    apply attach_roles_ok in Hu1 as ->. by rewrite lookup_insert_ne.
Qed.

(** X16: when the User table satisfies its key constraint, no two
    entries of the result have the same name, also for a user who holds
    both roles, and every entry is that of an enabled user who holds
    Tenants or System Manager; when moreover no statement fails, every
    such user has an entry. *)
Theorem users_are_listed_once (s : store) (users : list (gmap string pyval)) :
  NoDup (User.name <$> tabUser (db s)) →
  (get_users_with_roles s).1 = Ok users →
  NoDup ((λ u : gmap string pyval, u !! "name") <$> users)
  ∧ (∀ user, user ∈ users →
       ∃ u, u ∈ tabUser (db s)
            ∧ user !! "name" = Some (VStr (User.name u))
            ∧ User.enabled u = 1
            ∧ (holds_role (User.name u) "Tenants" (db s)
               ∨ holds_role (User.name u) "System Manager" (db s)))
  ∧ (faults s = [] →
     ∀ u, u ∈ tabUser (db s) → User.enabled u = 1 →
          holds_role (User.name u) "Tenants" (db s)
          ∨ holds_role (User.name u) "System Manager" (db s) →
          ∃ user, user ∈ users ∧ user !! "name" = Some (VStr (User.name u))).
Proof.
  intros Hpk Hrun. split; [|split].
  3: { intros Hf u Hu Hen Hroles.
       destruct (enabled_user_is_listed s u Hf Hu Hen Hroles)
         as (users' & user & Hrun' & Hin & Hname).
       rewrite Hrun in Hrun'. injection Hrun' as <-. by exists user. }
  - destruct (get_users_with_roles_names s users Hrun) as [-> | ->];
      [apply NoDup_nil_2|by apply select_users_names_nodup].
  - intros user Hin.
    destruct (get_users_with_roles_entry s users user Hrun Hin)
      as (u0 & u1 & s1 & s2 & Hu0 & _ & Hu1 & _ & Hu).
    destruct (select_users_rows (db s) u0 Hu0) as (u & Hrow & Hname & Hen & Hroles).
    exists u. repeat split; try done.
    destruct (attach_rental_keeps _ _ _ Hu) as [-> _].
    apply attach_roles_ok in Hu1 as ->. by rewrite lookup_insert_ne.
Qed.

(** **** The counter *)

Lemma length_remove_dups_le {A} `{EqDecision A} (l : list A) :
  (length (remove_dups l) ≤ length l)%nat.
Proof.
  induction l as [|x l IH]; [done|]. simpl. case_decide; simpl; lia.
Qed.

Lemma remove_dups_nil_inv {A} `{EqDecision A} (l : list A) :
  remove_dups l = [] → l = [].
Proof.
  destruct l as [|x l]; [done|]. intros Hn.
  assert (Hx : x ∈ remove_dups (x :: l)) by (apply elem_of_remove_dups; by left).
  rewrite Hn in Hx. by apply elem_of_nil in Hx.
Qed.

(** X17: [get_active_properties_count] never raises, and its payload
    always carries the tenant it was asked about and a count.  The count
    lies between 0 and the number of the tenant's Active rentals; when
    the statement does not fail it is 0 exactly when there is no such
    rental; and when the statement fails it is 0 as well, and the
    payload has an [error] in place of the [message]. *)
Theorem active_properties_count_bounds (tenant : string) (s : store) :
  ∃ payload c,
    (get_active_properties_count tenant s).1 = Ok payload
    ∧ payload !! "tenant" = Some (VStr tenant)
    ∧ payload !! "active_properties_count" = Some (VInt c)
    ∧ 0 ≤ c ≤ Z.of_nat (length (active_rentals tenant (db s)))
    ∧ (next_statement_ok s →
       is_Some (payload !! "message") ∧ payload !! "error" = None
       ∧ (c = 0 ↔ active_rentals tenant (db s) = []))
    ∧ (¬ next_statement_ok s →
       c = 0 ∧ is_Some (payload !! "error") ∧ payload !! "message" = None).
Proof.
  unfold get_active_properties_count, try_except, bind, run_query, next_statement_ok.
  destruct (faults s) as [|[e|] fs]; simpl.
  - eexists _, _. split; [done|]. split; [by lookup_entry|]. split; [by lookup_entry|].
    unfold get_all_distinct_property. rewrite length_fmap.
    fold (active_rentals tenant (db s)).
    pose proof (length_remove_dups_le (Rental.property <$> active_rentals tenant (db s))) as Hle.
    rewrite length_fmap in Hle. split; [lia|]. split; [|done]. intros _.
    split; [by lookup_entry|]. split; [by lookup_entry|]. split.
    + intros Hz. assert (Hl : remove_dups (Rental.property <$> active_rentals tenant (db s)) = []).
      { apply nil_length_inv. lia. }
      apply remove_dups_nil_inv in Hl. by apply fmap_nil_inv in Hl.
    + by intros ->.
  - eexists _, _. split; [done|]. split; [by lookup_entry|]. split; [by lookup_entry|].
    split; [lia|]. split; [done|]. intros _. split; [done|].
    split; by lookup_entry.
  - eexists _, _. split; [done|]. split; [by lookup_entry|]. split; [by lookup_entry|].
    unfold get_all_distinct_property. rewrite length_fmap.
    fold (active_rentals tenant (db s)).
    pose proof (length_remove_dups_le (Rental.property <$> active_rentals tenant (db s))) as Hle.
    rewrite length_fmap in Hle. split; [lia|]. split; [|done]. intros _.
    split; [by lookup_entry|]. split; [by lookup_entry|]. split.
    + intros Hz. assert (Hl : remove_dups (Rental.property <$> active_rentals tenant (db s)) = []).
      { apply nil_length_inv. lia. }
      apply remove_dups_nil_inv in Hl. by apply fmap_nil_inv in Hl.
    + by intros ->.
Qed.

End more_facts.

(** *** The further statements at concrete inputs *)

Lemma chausiku_holds_tenants : holds_role "chausiku@example.com" "Tenants" second_db.
Proof. exists (HasRole.mk "chausiku@example.com" "Tenants"). split; [left|done]. Qed.

Lemma daudi_holds_no_tenants : ¬ holds_role "daudi@example.com" "Tenants" second_db.
Proof.
  intros (hr & Hin & Hp & Hr). simpl in Hin.
  repeat (apply elem_of_cons in Hin as [->|Hin]; [discriminate|]).
  by apply elem_of_nil in Hin.
Qed.

Lemma tenant_without_rental_is_inactive_witness :
  ∃ users user,
    (get_users_with_roles second_store).1 = Ok users
    ∧ user ∈ users
    ∧ user !! "name" = Some (VStr "chausiku@example.com")
    ∧ user !! "rental_status" = Some (VStr "Inactive")
    ∧ user !! "assigned_property" = Some VNone
    ∧ user !! "lease_start" = None.
Proof.
  destruct (enabled_user_is_listed second_store
              (User.mk "chausiku@example.com" None (Some "Chausiku") None None 1))
    as (users & user & Hrun & Hin & Hname).
  - reflexivity.
  - left.
  - reflexivity.
  - left. exact chausiku_holds_tenants.
  - exists users, user. split; [done|]. split; [done|]. split; [done|].
    destruct (tenant_without_rental_is_inactive second_store users user
                "chausiku@example.com" Hrun Hin Hname chausiku_holds_tenants)
      as (Hstatus & Hprop & _ & Hstart & _).
    + vm_compute. reflexivity.
    + done.
Defined.

Lemma non_tenant_is_not_applicable_witness :
  ∃ users user,
    (get_users_with_roles second_store).1 = Ok users
    ∧ user ∈ users
    ∧ user !! "name" = Some (VStr "daudi@example.com")
    ∧ user !! "rental_status" = Some (VStr "N/A")
    ∧ user !! "assigned_property" = Some VNone
    ∧ user !! "monthly_rent" = None.
Proof.
  destruct (enabled_user_is_listed second_store
              (User.mk "daudi@example.com" None (Some "Daudi") None None 1))
    as (users & user & Hrun & Hin & Hname).
  - reflexivity.
  - right. left.
  - reflexivity.
  - right. exists (HasRole.mk "daudi@example.com" "System Manager").
    split; [right; left|done].
  - exists users, user. split; [done|]. split; [done|]. split; [done|].
    destruct (non_tenant_is_not_applicable second_store users user
                "daudi@example.com" Hrun Hin Hname daudi_holds_no_tenants)
      as (Hstatus & Hprop & _ & _ & _ & Hrent).
    done.
Defined.

Lemma latest_active_rental_is_attached_witness :
  ∃ users user r,
    (get_users_with_roles sample_store).1 = Ok users
    ∧ user ∈ users
    ∧ user !! "name" = Some (VStr "bakari@example.com")
    ∧ r ∈ active_rentals "bakari@example.com" sample_db
    ∧ user !! "assigned_property" = Some (VStr (Rental.property r))
    ∧ user !! "rental_status" = Some (VStr "Active").
Proof.
  destruct (enabled_user_is_listed sample_store
              (User.mk "bakari@example.com" (Some "bakari@example.com") (Some "Bakari")
                 None None 1))
    as (users & user & Hrun & Hin & Hname).
  - reflexivity.
  - left.
  - reflexivity.
  - left. exists (HasRole.mk "bakari@example.com" "Tenants").
    split; [right; right; left|done].
  - destruct (latest_active_rental_is_attached sample_store users user
                "bakari@example.com" Hrun Hin Hname)
      as (r & Hr & _ & Hprop & _ & _ & _ & _ & Hstatus).
    + exists (HasRole.mk "bakari@example.com" "Tenants").
      split; [right; right; left|done].
    + vm_compute. discriminate.
    + exists users, user, r. done.
Defined.

Lemma users_are_listed_once_witness :
  ∃ users,
    (get_users_with_roles sample_store).1 = Ok users
    ∧ NoDup ((λ u : gmap string pyval, u !! "name") <$> users)
    ∧ ∃ user, user ∈ users ∧ user !! "name" = Some (VStr "bakari@example.com").
Proof.
  destruct (enabled_user_is_listed sample_store
              (User.mk "bakari@example.com" (Some "bakari@example.com") (Some "Bakari")
                 None None 1))
    as (users & user0 & Hrun & _ & _).
  - reflexivity.
  - left.
  - reflexivity.
  - left. exists (HasRole.mk "bakari@example.com" "Tenants").
    split; [right; right; left|done].
  - destruct (users_are_listed_once sample_store users) as (Hnd & _ & Hall).
    + apply (bool_decide_unpack _). vm_compute. exact I.
    + exact Hrun.
    + exists users. split; [done|]. split; [done|].
      apply (Hall eq_refl
               (User.mk "bakari@example.com" (Some "bakari@example.com") (Some "Bakari")
                  None None 1)).
      * left.
      * reflexivity.
      * right. exists (HasRole.mk "bakari@example.com" "System Manager").
        split; [right; left|done].
Defined.

Lemma active_properties_count_bounds_witness :
  ∃ payload,
    (get_active_properties_count "asha@example.com"
       (mkStore sample_db
          [Some (mkExn (OtherException "OperationalError") "server has gone away")] [])).1
    = Ok payload
    ∧ payload !! "active_properties_count" = Some (VInt 0)
    ∧ is_Some (payload !! "error").
Proof.
  destruct (active_properties_count_bounds "asha@example.com"
              (mkStore sample_db
                 [Some (mkExn (OtherException "OperationalError") "server has gone away")]
                 []))
    as (payload & c & Hrun & _ & Hcount & _ & _ & Hfail).
  destruct Hfail as (-> & Herr & _); [intros Hok; exact Hok|].
  exists payload. done.
Defined.
End DashboardFacts.

(** ** Rental listing *)

Module RentalsFacts.
Import Rentals.

Section facts.
Context `{!Env}.

Lemma rentals_query_frame {A} (q : database → outcome A) (s : store) :
  db (run_query q s).2 = db s ∧ error_log (run_query q s).2 = error_log s.
Proof. unfold run_query. by destruct (faults s) as [|[e|] fs]. Qed.

Lemma get_doc_missing (table : database → gmap string (gmap string pyval))
    (dt p : string) (s : store) :
  table (db s) !! p = None → ∃ e, (get_doc table dt (VStr p) s).1 = Raise e.
Proof.
  intros Hp. unfold get_doc, run_query.
  destruct (faults s) as [|[e|] fs]; simpl; rewrite ?Hp; by eexists.
Qed.

Lemma enrich_frame (rental : gmap string pyval) (s : store) :
  db (enrich rental s).2 = db s ∧ error_log (enrich rental s).2 = error_log s.
Proof.
  unfold enrich, bind.
  assert (H1 : ∀ (m : M store (gmap string pyval)) (k : gmap string pyval → M store (gmap string pyval)),
             (db (m s).2 = db s ∧ error_log (m s).2 = error_log s) →
             (∀ x s', db (k x s').2 = db s' ∧ error_log (k x s').2 = error_log s') →
             db (match m s with (Ok a, s') => k a s' | (Raise e, s') => (Raise e, s') end).2 = db s
             ∧ error_log (match m s with (Ok a, s') => k a s' | (Raise e, s') => (Raise e, s') end).2
               = error_log s).
  { intros m k [Hd He] Hk. destruct (m s) as [[a|e] s1]; simpl in *; [|done].
    destruct (Hk a s1) as [-> ->]. done. }
  apply H1.
  - destruct (truthy _); [|done].
    destruct (rentals_query_frame
                (λ d, match dict_get rental "property" with
                      | VStr p => match tabProperty d !! p with
                                  | Some f => Ok f
                                  | None => Raise (mkExn DoesNotExistError
                                                     ("Property" +:+ " " +:+ p +:+ " not found"))
                                  end
                      | _ => Raise (mkExn DoesNotExistError ("Property" +:+ " not found"))
                      end) s) as [Hd He].
    unfold get_doc. by destruct (run_query _ s) as [[a|e] s1].
  - intros r1 s1. destruct (truthy (dict_get r1 "tenant")); [|done].
    destruct (rentals_query_frame
                (λ d, match dict_get r1 "tenant" with
                      | VStr p => match tabUser d !! p with
                                  | Some f => Ok f
                                  | None => Raise (mkExn DoesNotExistError
                                                     ("User" +:+ " " +:+ p +:+ " not found"))
                                  end
                      | _ => Raise (mkExn DoesNotExistError ("User" +:+ " not found"))
                      end) s1) as [Hd He].
    unfold get_doc. by destruct (run_query _ s1) as [[a|e] s2].
Qed.

(** A loop with an element on which the body always raises, raises. *)
Lemma map_m_raises {A B} (f : A → M store B) (l : list A) (x : A) (D : database) :
  (∀ y s, db (f y s).2 = db s) →
  x ∈ l →
  (∀ s, db s = D → ∃ e, (f x s).1 = Raise e) →
  ∀ s, db s = D → ∃ e, (map_m f l s).1 = Raise e.
Proof.
  intros Hframe Hx Hraise. induction l as [|y l IH]; intros s Hs;
    [by apply elem_of_nil in Hx|].
  simpl. unfold bind. apply elem_of_cons in Hx as [<-|Hx].
  - destruct (Hraise s Hs) as [e He].
    destruct (f x s) as [[b|e'] s1]; [done|]. by exists e'.
  - pose proof (Hframe y s) as Hd.
    destruct (f y s) as [[b|e'] s1]; [|by exists e'].
    simpl in Hd. destruct (IH Hx s1) as [e He]; [by rewrite Hd|].
    destruct (map_m f l s1) as [[bs|e''] s2]; [done|]. by exists e''.
Qed.

Lemma to_dict_lookup (r : Row.t) :
  dict_get (to_dict r) "property" = Dashboard.cell_val (Row.property r)
  ∧ dict_get (to_dict r) "tenant" = Dashboard.cell_val (Row.tenant r)
  ∧ dict_get (to_dict r) "status" = Dashboard.cell_val (Row.status r)
  ∧ to_dict r !! "name" = Some (VStr (Row.name r))
  ∧ to_dict r !! "property_details" = None.
Proof.
  unfold dict_get, to_dict.
  repeat split;
    by repeat (rewrite ?lookup_insert_eq; try rewrite lookup_insert_ne by done).
Qed.

(** The body of the loop raises on a rental with a dangling reference. *)
Lemma enrich_dangling (r : Row.t) (s : store) :
  dangling (Row.property r) (tabProperty (db s))
  ∨ dangling (Row.tenant r) (tabUser (db s)) →
  ∃ e, (enrich (to_dict r) s).1 = Raise e.
Proof.
  destruct (to_dict_lookup r) as (Hp & Ht & _).
  intros [(p & Hc & Hne & Hmiss) | (t & Hc & Hne & Hmiss)]; unfold enrich.
  - unfold bind at 1. rewrite Hp, Hc. cbn [Dashboard.cell_val].
    assert (Htr : truthy (VStr p) = true) by (by destruct p).
    rewrite Htr. unfold bind at 1.
    destruct (get_doc_missing tabProperty "Property" p s Hmiss) as [e He].
    destruct (get_doc tabProperty "Property" (VStr p) s) as [[f|e'] s1]; [done|].
    by exists e'.
  - unfold bind at 1.
    set (stage1 := if truthy (dict_get (to_dict r) "property") then _ else _).
    assert (Hstage : ∀ r1 s1, stage1 s = (Ok r1, s1) →
              db s1 = db s ∧ dict_get r1 "tenant" = VStr t).
    { subst stage1. intros r1 s1. destruct (truthy _).
      - unfold bind, get_doc.
        pose proof (rentals_query_frame
                      (λ d, match dict_get (to_dict r) "property" with
                            | VStr p => match tabProperty d !! p with
                                        | Some f => Ok f
                                        | None => Raise (mkExn DoesNotExistError
                                                           ("Property" +:+ " " +:+ p +:+ " not found"))
                                        end
                            | _ => Raise (mkExn DoesNotExistError ("Property" +:+ " not found"))
                            end) s) as [Hd _].
        destruct (run_query _ s) as [[f|e] s2]; [|done]. simpl in *.
        intros [= <- <-]. split; [done|].
        unfold dict_get. rewrite lookup_insert_ne by done.
        fold (dict_get (to_dict r) "tenant"). by rewrite Ht, Hc.
      - intros [= <- <-]. split; [done|]. by rewrite Ht, Hc. }
    destruct (stage1 s) as [[r1 |e] s1]; [|by exists e].
    destruct (Hstage r1 s1 eq_refl) as [Hd Hten].
    unfold bind at 1. rewrite Hten.
    assert (Htr : truthy (VStr t) = true) by (by destruct t).
    rewrite Htr. unfold bind at 1. rewrite <- Hd in Hmiss.
    destruct (get_doc_missing tabUser "User" t s1 Hmiss) as [e He].
    destruct (get_doc tabUser "User" (VStr t) s1) as [[f|e'] s2]; [done|].
    by exists e'.
Qed.

(** X18: one dangling reference fails the whole listing.  When a rental
    that passes the filters names a Property or a User that does not
    exist, [get_rentals] returns an error payload whose [rentals] is
    the empty list, whatever the other rentals are. *)
Theorem dangling_reference_fails_listing (filters : pyval) (s : store) (r : Row.t) :
  r ∈ tabRental (db s) →
  matches (effective_filters filters) r = true →
  dangling (Row.property r) (tabProperty (db s))
  ∨ dangling (Row.tenant r) (tabUser (db s)) →
  ∃ msg, (get_rentals filters s).1
         = Ok (<["error" := VStr msg]> (<["rentals" := VList []]> ∅)).
Proof.
  intros Hr Hm Hd. unfold get_rentals, try_except.
  fold (effective_filters filters).
  destruct (bind _ _ s) as [[payload|e] s2] eqn:Hbody; [exfalso|by eexists].
  revert Hbody. unfold bind at 1.
  pose proof (rentals_query_frame (λ d, Ok (get_all_rentals (effective_filters filters) d)) s)
    as [Hdb _].
  assert (Hval : ∀ l, (run_query (λ d, Ok (get_all_rentals
                                             (effective_filters filters) d)) s).1 = Ok l →
                      l = get_all_rentals (effective_filters filters) (db s)).
  { unfold run_query. intros l.
    destruct (faults s) as [|[e|] fs]; simpl; congruence. }
  destruct (run_query _ s) as [[l|e] s0]; [|done].
  rewrite (Hval l eq_refl). simpl in Hdb. unfold bind at 1.
  destruct (map_m_raises enrich (get_all_rentals (effective_filters filters) (db s))
              (to_dict r) (db s) (λ y s', proj1 (enrich_frame y s'))) with (s := s0)
    as [e He].
  - unfold get_all_rentals, selected. apply list_elem_of_fmap. exists r.
    split; [done|]. rewrite DashboardFacts.order_by_perm.
    by apply list_elem_of_filter.
  - intros s' Hs'. apply enrich_dangling. by rewrite Hs'.
  - done.
  - by destruct (map_m enrich _ s0) as [[rs|e'] s1].
Qed.







End facts.

(** *** The statements at concrete inputs *)

Import Sample.

Lemma dangling_reference_fails_listing_witness :
  ∃ msg, (get_rentals VNone sample_store).1
         = Ok (<["error" := VStr msg]> (<["rentals" := VList []]> ∅)).
Proof.
  apply (dangling_reference_fails_listing VNone sample_store
           (Row.mk "R-3" (Some "P-9") (VStr "Old Mill") (Some "asha@example.com")
              (VStr "Asha") (Some "Expired") (VStr "Monthly") (VInt 1)
              (Some "2020-01-01") (Some "2020-12-31") (VInt 12) (VInt 1) 50)).
  - right. right. left.
  - reflexivity.
  - left. exists "P-9". split; [reflexivity|]. split; [discriminate|].
    vm_compute. reflexivity.
Defined.

End RentalsFacts.
